(** * tracerouter.py: discovery of the instances of a project and the
      diagnostics run against them

    A shallow embedding of [tracerouter.py].  The script talks to three
    things outside of itself: the Compute API client, the processes it
    spawns ([traceroute], [dig], [gcloud]) and Python's [re] module.  Each
    of them is a parameter of the embedding; what the script does with
    their answers is translated function by function.

    Every function of the script that has an effect runs in the monad
    [M]: it yields the list of the effects it performed, in order, and
    either a value or the exception that ended it. *)

From Stdlib Require Import String Ascii List ZArith Bool Lia.
From stdpp Require Import base option list strings gmap fin_maps.

Local Open Scope string_scope.
Local Open Scope list_scope.

(** ** Exceptions and effects *)

(** The exception classes that the script can meet. *)
Inductive exn : Type :=
| KeyError (key : string)          (* d[key] on a mapping without key *)
| IndexError                       (* l[0] on an empty list *)
| ReError                          (* re.error, raised by re.compile *)
| OSError (msg : string)           (* str(e) is msg *)
| CalledProcessError (returncode : Z)
| ClientError (msg : string).      (* raised inside the API client *)

Inductive res (A : Type) : Type :=
| Ok (a : A)
| Raise (e : exn).
Arguments Ok {A} a.
Arguments Raise {A} e.

Definition rbind {A B : Type} (r : res A) (k : A -> res B) : res B :=
  match r with
  | Ok a => k a
  | Raise e => Raise e
  end.

(** How a spawned process has its standard error wired. *)
Inductive stderr_mode : Type :=
| StderrInherit                    (* check_output(args) *)
| StderrPipe                       (* stderr=subprocess.PIPE *)
| StderrToStdout.                  (* stderr=subprocess.STDOUT *)

(** What the script does to the outside, one constructor per kind of
    call. *)
Inductive event : Type :=
| EvBuildApi                                   (* get_gcloud_api() *)
| EvZonesList (project : string)               (* zones().list(..).execute() *)
| EvInstancesList (project zone : string)      (* instances().list(..).execute() *)
| EvExec (args : list string) (err : stderr_mode) (* Popen / check_output *)
| EvPrint (text : string)                      (* print(text) *)
| EvWrite (text : string).                     (* print(text, end=empty) *)

Definition M (A : Type) : Type := (list event * res A)%type.

Definition ret {A : Type} (a : A) : M A := ([], Ok a).
Definition raise {A : Type} (e : exn) : M A := ([], Raise e).
Definition emit (ev : event) : M unit := ([ev], Ok tt).
Definition lift {A : Type} (r : res A) : M A := ([], r).

Definition bind {A B : Type} (m : M A) (k : A -> M B) : M B :=
  match m with
  | (t, Ok a) => let (t', r) := k a in (t ++ t', r)
  | (t, Raise e) => (t, Raise e)
  end.

Definition trace {A : Type} (m : M A) : list event := fst m.
Definition outcome {A : Type} (m : M A) : res A := snd m.

Declare Scope py_scope.
Delimit Scope py_scope with py.
Notation "x <- m ;; k" := (bind m (fun x => k))
  (at level 100, m at next level, right associativity) : py_scope.
Notation "m ;; k" := (bind m (fun _ => k))
  (at level 100, right associativity) : py_scope.
Notation "x <-? r ;; k" := (rbind r (fun x => k))
  (at level 100, r at next level, right associativity) : py_scope.
Local Open Scope py_scope.

(** ** Python's subscripts, comprehensions and string methods *)

(** [d[key]] where the member [key] of [d] is [field]. *)
Definition getitem {A : Type} (key : string) (field : option A) : res A :=
  match field with
  | Some v => Ok v
  | None => Raise (KeyError key)
  end.

(** [l[0]]. *)
Definition first {A : Type} (l : list A) : res A :=
  match l with
  | x :: _ => Ok x
  | [] => Raise IndexError
  end.

(** [[x for x in l if p(x)]]: the condition is evaluated left to right
    and the first exception ends the comprehension. *)
Fixpoint filter_comp {A : Type} (p : A -> res bool) (l : list A)
  : res (list A) :=
  match l with
  | [] => Ok []
  | x :: l' =>
      b <-? p x ;;
      f <-? filter_comp p l' ;;
      Ok (if b then x :: f else f)
  end.

(** [[g(x) for x in l]]. *)
Fixpoint map_comp {A B : Type} (g : A -> res B) (l : list A)
  : res (list B) :=
  match l with
  | [] => Ok []
  | x :: l' =>
      y <-? g x ;;
      ys <-? map_comp g l' ;;
      Ok (y :: ys)
  end.

(** ** Python's dict *)

(** A dict with strings for keys: what each key is mapped to, and the
    keys in the order in which they were first set, which is the order
    in which the dict is walked. *)
Record pydict (A : Type) : Type := PyDict {
  dict_keys : list string;
  dict_map : gmap string A
}.
Arguments PyDict {A} dict_keys dict_map.
Arguments dict_keys {A} p.
Arguments dict_map {A} p.

(** The empty dict. *)
#[global] Instance pydict_empty {A : Type} : Empty (pydict A) := PyDict [] ∅.

(** What [d[k]] reads, [None] when [d] has no key [k]. *)
#[global] Instance pydict_lookup {A : Type} : Lookup string A (pydict A) :=
  fun k d => dict_map d !! k.

(** [d[k] = v]: a key that is new comes last; a key that [d] has keeps
    its place. *)
#[global] Instance pydict_insert {A : Type} : Insert string A (pydict A) :=
  fun k v d =>
    PyDict (if bool_decide (k ∈ dict_keys d) then dict_keys d
            else dict_keys d ++ [k])
           (<[k := v]> (dict_map d)).

(** The set of the keys. *)
#[global] Instance pydict_dom {A : Type} : Dom (pydict A) (gset string) :=
  fun d => dom (dict_map d).

(** The keys with their values, in the order in which [for k in d]
    walks them. *)
Definition dict_items {A : Type} (d : pydict A) : list (string * A) :=
  omap (fun k => (fun v => (k, v)) <$> dict_map d !! k) (dict_keys d).

(** ** The Compute API *)

(** The resources of the Compute API are JSON objects, which the client
    hands over as dicts.  The script reads their members by key, so
    each member it reads is optional here: [None] is a key that the
    dict does not have.  Members that the script never reads are left
    out. *)
Record access_config : Type := AccessConfig {
  natIP : option string
}.

Record network_interface : Type := NetworkInterface {
  accessConfigs : option (list access_config)
}.

Record instance : Type := Instance {
  i_name : option string;
  i_status : option string;
  i_kind : option string;
  networkInterfaces : option (list network_interface)
}.

Record zone : Type := Zone {
  z_name : option string;
  z_status : option string;
  z_kind : option string
}.

(** The body of a list call: [items] is absent from the JSON when the
    collection is empty. *)
Record list_response (A : Type) : Type := ListResponse {
  items : option (list A)
}.
Arguments ListResponse {A} items.
Arguments items {A} l.

(** The provider behind the client: what [execute()] returns for each of
    the two requests, or the exception it raises. *)
Record compute_api : Type := ComputeApi {
  zones_execute : string -> res (list_response zone);
  instances_execute : string -> string -> res (list_response instance)
}.

(** [compute_api.instances().list(project=project, zone=zone).execute()] *)
Definition instances_list (api : compute_api) (project zone : string)
  : M (list_response instance) :=
  emit (EvInstancesList project zone) ;;
  lift (instances_execute api project zone).

(** [compute_api.zones().list(project=project).execute()] *)
Definition zones_list (api : compute_api) (project : string)
  : M (list_response zone) :=
  emit (EvZonesList project) ;;
  lift (zones_execute api project).

(** [list_instances], lines 126-141. *)
Definition list_instances (api : compute_api) (project zone : string)
  : M (list instance) :=
  result <- instances_list api project zone ;;
  match items result with
  | Some its => ret its
  | None => ret []
  end.

(** The condition of the comprehension of [get_zone_names]:
    [(i["status"] == "UP") and (i["kind"] == "compute#zone")]. *)
Definition zone_is_up (i : zone) : res bool :=
  st <-? getitem "status" (z_status i) ;;
  if String.eqb st "UP" then
    k <-? getitem "kind" (z_kind i) ;;
    Ok (String.eqb k "compute#zone")
  else Ok false.

(** [get_zone_names], lines 144-159. *)
Definition get_zone_names (api : compute_api) (project : string)
  : M (list string) :=
  result <- zones_list api project ;;
  lift (its <-? getitem "items" (items result) ;;
        filtered_list <-? filter_comp zone_is_up its ;;
        map_comp (fun i => getitem "name" (z_name i)) filtered_list).

(** ** Python's [re] module *)

(** The script uses two entry points of [re]: [re.compile(pattern)],
    which raises [re.error] on a pattern that is not well formed, and
    [regex.match(string)], whose result is used as a truth value: a
    match object when the pattern matches at position 0, [None]
    otherwise. *)
Record re_engine : Type := ReEngine {
  regex : Type;
  re_compile : string -> option regex;
  re_match : regex -> string -> bool
}.

(** ** Discovery *)

Section Discovery.

Variable E : re_engine.

(** [re.compile(match_pattern)] *)
Definition py_re_compile (match_pattern : string) : res (regex E) :=
  match re_compile E match_pattern with
  | Some r => Ok r
  | None => Raise ReError
  end.

(** The condition of the comprehension of [obtain_instances], lines
    210-211:
    [(x["status"] == "RUNNING") and (x["kind"] == "compute#instance")
     and regex.match(x["name"])]. *)
Definition instance_selected (rx : regex E) (x : instance) : res bool :=
  st <-? getitem "status" (i_status x) ;;
  if String.eqb st "RUNNING" then
    k <-? getitem "kind" (i_kind x) ;;
    if String.eqb k "compute#instance" then
      n <-? getitem "name" (i_name x) ;;
      Ok (re_match E rx n)
    else Ok false
  else Ok false.

(** What one turn of the loop of [obtain_instances] stores for a zone:
    the instances that [list_instances] returns, filtered. *)
Definition selected_in (api : compute_api) (project : string) (rx : regex E)
    (zone_name : string) : res (list instance) :=
  result <-? instances_execute api project zone_name ;;
  filter_comp (instance_selected rx) (default [] (items result)).

(** The [for zone_name in zone_names] loop of [obtain_instances], lines
    205-213, started with the dict [zone_instances]. *)
Fixpoint obtain_instances_loop (api : compute_api) (project : string)
    (rx : regex E) (zone_names : list string)
    (zone_instances : pydict (list instance))
  : M (pydict (list instance)) :=
  match zone_names with
  | [] => ret zone_instances
  | zone_name :: zone_names' =>
      let zone_instances := <[zone_name := []]> zone_instances in
      instances <- list_instances api project zone_name ;;
      f <- lift (filter_comp (instance_selected rx) instances) ;;
      obtain_instances_loop api project rx zone_names'
        (<[zone_name := f]> zone_instances)
  end.

(** [obtain_instances], lines 184-214. *)
Definition obtain_instances (api : compute_api) (project : string)
    (match_pattern : string) : M (pydict (list instance)) :=
  zone_names <- get_zone_names api project ;;
  rx <- lift (py_re_compile match_pattern) ;;
  obtain_instances_loop api project rx zone_names ∅.

End Discovery.

(** ** Strings *)

Definition newline : ascii := ascii_of_nat 10.

(** The one-character string made of a double quote. *)
Definition dquote : string := String (ascii_of_nat 34) EmptyString.

(** The characters that [str.strip()] removes: tab, line feed, vertical
    tab, form feed, carriage return and space. *)
Definition is_space (c : ascii) : bool :=
  let n := nat_of_ascii c in
  ((9 <=? n)%nat && (n <=? 13)%nat) || (n =? 32)%nat.

Fixpoint lstrip (s : string) : string :=
  match s with
  | String c s' => if is_space c then lstrip s' else s
  | EmptyString => EmptyString
  end.

Fixpoint rstrip (s : string) : string :=
  match s with
  | EmptyString => EmptyString
  | String c s' =>
      match rstrip s' with
      | EmptyString => if is_space c then EmptyString else String c EmptyString
      | r => String c r
      end
  end.

(** [s.strip()] *)
Definition strip (s : string) : string := rstrip (lstrip s).

(** What iterating [f.readline] up to the empty string yields on a
    stream that holds [s]: the
    lines of [s], each with its line feed, the last one without when [s]
    does not end in one. *)
Fixpoint readlines (s : string) : list string :=
  match s with
  | EmptyString => []
  | String c s' =>
      if Ascii.eqb c newline then String c EmptyString :: readlines s'
      else match readlines s' with
           | [] => [String c EmptyString]
           | l :: ls => String c l :: ls
           end
  end.

(** [sep.join(l)] *)
Definition join (sep : string) (l : list string) : string :=
  String.concat sep l.

(** ** Processes *)

(** A process that was started and ran to its end: what it wrote on the
    pipe of its standard output, what it wrote on the pipe of its
    standard error (when it has one), and its exit status. *)
Record process : Type := Process {
  stdout : string;
  stderr : string;
  returncode : Z
}.

(** The machine the script runs on: starting a process either raises
    (an [OSError] when the executable is not found) or gives a process;
    [client] is what building the API client gives. *)
Record host : Type := Host {
  popen : list string -> stderr_mode -> res process;
  client : res compute_api
}.

(** [subprocess.Popen(args, stdout=subprocess.PIPE, stderr=err)] *)
Definition Popen (h : host) (args : list string) (err : stderr_mode)
  : M process :=
  emit (EvExec args err) ;;
  lift (popen h args err).

(** [subprocess.check_output(args, stderr=err)] *)
Definition check_output (h : host) (args : list string) (err : stderr_mode)
  : M string :=
  proc <- Popen h args err ;;
  if Z.eqb (returncode proc) 0 then ret (stdout proc)
  else raise (CalledProcessError (returncode proc)).

(** [for x in l: body(x)] *)
Fixpoint for_each {A : Type} (body : A -> M unit) (l : list A) : M unit :=
  match l with
  | [] => ret tt
  | x :: l' => body x ;; for_each body l'
  end.

(** [try: m  except OSError as e: handler(str(e))] *)
Definition try_except_OSError {A : Type} (m : M A) (handler : string -> M A)
  : M A :=
  match m with
  | (t, Raise (OSError msg)) => let (t', r) := handler msg in (t ++ t', r)
  | _ => m
  end.

(** [get_gcloud_api], lines 92-100. *)
Definition get_gcloud_api (h : host) : M compute_api :=
  emit EvBuildApi ;;
  lift (client h).

Definition dig_self_ip : list string :=
  ["dig"; "myip.opendns.com"; "@resolver1.opendns.com"; "+short"].

(** [obtain_self_ip], lines 103-111. *)
Definition obtain_self_ip (h : host) : M string :=
  ip <- check_output h dig_self_ip StderrInherit ;;
  ret (strip ip).

(** [obtain_default_project], lines 114-123. *)
Definition obtain_default_project (h : host) : M string :=
  default_project <-
    check_output h ["gcloud"; "config"; "get-value"; "project"] StderrPipe ;;
  ret (strip default_project).

(** [print_dig], lines 167-176. *)
Definition print_dig (h : host) : M unit :=
  emit (EvPrint ("Running " +:+ dquote +:+
    "dig -t txt o-o.myaddr.l.google.com @ns1.google.com" +:+ dquote)) ;;
  dig <- Popen h ["dig"; "-t"; "txt"; "o-o.myaddr.l.google.com";
                  "@ns1.google.com"] StderrToStdout ;;
  for_each (fun line => emit (EvWrite line)) (readlines (stdout dig)) ;;
  emit (EvPrint EmptyString).

(** ** The actions *)

(** The text that [print_subprocess] prints for an error, line 250:
    ["Error running {0}: {1}\nCALL: {2}\n".format(proc_name, error_str,
    proc_args_str)]. *)
Definition error_report (proc_name error_str proc_args_str : string) : string :=
  "Error running " +:+ proc_name +:+ ": " +:+ error_str
  +:+ String newline "CALL: " +:+ proc_args_str +:+ String newline EmptyString.

(** [print_subprocess], lines 222-251. *)
Definition print_subprocess (h : host) (proc_name : string)
    (proc_args : list string) : M unit :=
  let proc_args_str := join " " proc_args in
  try_except_OSError
    (proc <- Popen h proc_args StderrPipe ;;
     for_each (fun l => emit (EvWrite l)) (readlines (stdout proc)) ;;
     if negb (Z.eqb (returncode proc) 0) then
       let e_str := "[FROM VM]: " +:+ strip (stderr proc) in
       raise (OSError e_str)
     else emit (EvPrint EmptyString))
    (fun error_str =>
       emit (EvPrint (error_report proc_name error_str proc_args_str))).

(** [instance["networkInterfaces"][0]["accessConfigs"][0]["natIP"]],
    lines 271 and 288. *)
Definition external_ip_of (instance : instance) : res string :=
  nis <-? getitem "networkInterfaces" (networkInterfaces instance) ;;
  ni <-? first nis ;;
  acs <-? getitem "accessConfigs" (accessConfigs ni) ;;
  ac <-? first acs ;;
  getitem "natIP" (natIP ac).

Definition ssh_traceroute (name tr_project_name tr_zone_name self_ip : string)
  : list string :=
  ["gcloud"; "compute"; "ssh"; name; "--project"; tr_project_name;
   "--zone"; tr_zone_name; "--command"; "traceroute " +:+ self_ip].

(** [traceroute_instance], lines 254-281. *)
Definition traceroute_instance (h : host) (instance : instance)
    (tr_project_name tr_zone_name : string) (reverse_traceroute : bool)
  : M unit :=
  name <- lift (getitem "name" (i_name instance)) ;;
  external_ip <- lift (external_ip_of instance) ;;
  self_ip <- obtain_self_ip h ;;
  emit (EvPrint ("Traceroute TO " +:+ name +:+ ": " +:+ self_ip +:+ " -> "
                 +:+ external_ip)) ;;
  print_subprocess h "Traceroute" ["traceroute"; external_ip] ;;
  if reverse_traceroute then
    emit (EvPrint ("Traceroute FROM " +:+ name +:+ ": " +:+ external_ip
                   +:+ " -> " +:+ self_ip)) ;;
    print_subprocess h "Reverse Traceroute"
      (ssh_traceroute name tr_project_name tr_zone_name self_ip)
  else ret tt.

(** [print_instance], lines 284-289. *)
Definition print_instance (instance : instance) : M unit :=
  name <- lift (getitem "name" (i_name instance)) ;;
  external_ip <- lift (external_ip_of instance) ;;
  emit (EvPrint (name +:+ ": " +:+ external_ip)).

(** ** The command line and [main] *)

(** What [parse_args()] returns. *)
Record arguments : Type := Arguments_ {
  a_print : bool;
  a_project : option string;
  a_dig : bool;
  a_reverse_traceroute : bool;
  a_match_pattern : string
}.

(** The body of [for inst in zone_instances[zone_name]], lines 320-324. *)
Definition report_instance (h : host) (args : arguments)
    (current_project zone_name : string) (inst : instance) : M unit :=
  if a_print args then print_instance inst
  else traceroute_instance h inst current_project zone_name
         (a_reverse_traceroute args).

(** The body of [for zone_name in zone_instances], lines 311-324, at the
    item [zone_name], [zone_instances[zone_name]] of the dict. *)
Definition report_zone (h : host) (args : arguments)
    (current_project : string) (item : string * list instance) : M unit :=
  let (zone_name, instances) := item in
  if (length instances =? 0)%nat then ret tt
  else
    emit (EvPrint EmptyString) ;;
    emit (EvPrint ("Instances in " +:+ zone_name)) ;;
    emit (EvPrint "----------------------------------------") ;;
    for_each (report_instance h args current_project zone_name) instances.

Section Main.

Variable E : re_engine.

(** [main], lines 292-324, on the parsed command line [args].  The
    dict that discovery returns is walked in the order in which its keys
    were set, which is the order in which the zones were listed. *)
Definition main (h : host) (args : arguments) : M unit :=
  (if a_dig args then print_dig h else ret tt) ;;
  current_project <-
    match a_project args with
    | None => obtain_default_project h
    | Some p => ret p
    end ;;
  emit (EvPrint ("Project is: " +:+ current_project)) ;;
  emit (EvPrint "#################################") ;;
  emit (EvPrint "Obtaining instances...") ;;
  compute_api <- get_gcloud_api h ;;
  zone_instances <-
    obtain_instances E compute_api current_project (a_match_pattern args) ;;
  for_each (report_zone h args current_project) (dict_items zone_instances).

End Main.

(** ** A reference engine for a fragment of [re]

    The theorems on discovery hold for every engine.  To run discovery on
    concrete patterns, this module gives an engine for the fragment of
    the pattern language made of literal characters, [.], [^], [$],
    character sets, [\d], groups, [|] and the quantifiers [*], [+] and
    [?].  A pattern outside of the fragment is reported as [Unsupported]
    rather than guessed at. *)
Module Re.

Inductive node : Type :=
| Empty                                        (* matches the empty string *)
| Lit (c : ascii)
| AnyChar                                      (* . *)
| CharSet (negated : bool) (ranges : list (ascii * ascii))
| Bol                                          (* ^ *)
| Eol                                          (* $ *)
| Cat (r1 r2 : node)
| Alt (r1 r2 : node)
| Star (r : node).

Definition in_range (c : ascii) (range : ascii * ascii) : bool :=
  (nat_of_ascii (fst range) <=? nat_of_ascii c)%nat
  && (nat_of_ascii c <=? nat_of_ascii (snd range))%nat.

(** [run r bol s k]: some way of matching [r] at the front of [s] leaves
    a rest that [k] accepts.  [bol] tells that nothing has been consumed
    since position 0.  [.] does not match a line feed; [$] matches at
    the end and before a line feed that ends the string. *)
Fixpoint run (r : node) (bol : bool) (s : string)
    (k : bool -> string -> bool) : bool :=
  match r with
  | Empty => k bol s
  | Lit c =>
      match s with
      | String d s' => Ascii.eqb c d && k false s'
      | EmptyString => false
      end
  | AnyChar =>
      match s with
      | String d s' => negb (Ascii.eqb d newline) && k false s'
      | EmptyString => false
      end
  | CharSet negated ranges =>
      match s with
      | String d s' => xorb negated (existsb (in_range d) ranges) && k false s'
      | EmptyString => false
      end
  | Bol => bol && k bol s
  | Eol =>
      match s with
      | EmptyString => k bol s
      | String d EmptyString => Ascii.eqb d newline && k bol s
      | _ => false
      end
  | Cat r1 r2 => run r1 bol s (fun b s1 => run r2 b s1 k)
  | Alt r1 r2 => run r1 bol s k || run r2 bol s k
  | Star r1 =>
      (fix loop (n : nat) (bol : bool) (s : string) {struct n} : bool :=
         k bol s ||
         match n with
         | O => false
         | S n' =>
             run r1 bol s (fun b s1 =>
               (String.length s1 <? String.length s)%nat && loop n' b s1)
         end) (String.length s) bol s
  end.

(** [regex.match(s)] seen as a truth value. *)
Definition matches (r : node) (s : string) : bool :=
  run r true s (fun _ _ => true).

Fixpoint nullable (r : node) : bool :=
  match r with
  | Empty | Bol | Eol | Star _ => true
  | Lit _ | AnyChar | CharSet _ _ => false
  | Cat r1 r2 => nullable r1 && nullable r2
  | Alt r1 r2 => nullable r1 || nullable r2
  end.

Inductive parsed (A : Type) : Type :=
| Parsed (a : A)
| Malformed                       (* re.compile raises re.error *)
| Unsupported.                    (* outside of the fragment *)
Arguments Parsed {A} a.
Arguments Malformed {A}.
Arguments Unsupported {A}.

Definition is_alnum (c : ascii) : bool :=
  let n := nat_of_ascii c in
  ((48 <=? n) && (n <=? 57) || (65 <=? n) && (n <=? 90)
   || (97 <=? n) && (n <=? 122))%nat.

Definition is_quantifier (c : ascii) : bool :=
  Ascii.eqb c "*" || Ascii.eqb c "+" || Ascii.eqb c "?".

(** The members of a set, after the opening bracket and the optional
    [^]: letters, digits, [_] and ranges between letters or digits, up
    to the closing bracket. *)
Fixpoint parse_set (s : string) (acc : list (ascii * ascii))
  : parsed (list (ascii * ascii) * string) :=
  match s with
  | EmptyString => Malformed
  | String "]" rest =>
      match acc with
      | [] => Unsupported
      | _ => Parsed (rev acc, rest)
      end
  | String lo (String "-" (String hi rest)) =>
      if is_alnum lo && is_alnum hi then
        if (nat_of_ascii lo <=? nat_of_ascii hi)%nat
        then parse_set rest ((lo, hi) :: acc)
        else Malformed
      else Unsupported
  | String c rest =>
      if is_alnum c || Ascii.eqb c "_" then parse_set rest ((c, c) :: acc)
      else Unsupported
  end.

(** The quantifier that may follow the atom [r]; [anchor] tells that
    [r] is [^] or [$]. *)
Definition quantified (anchor : bool) (r : node) (s : string)
  : parsed (node * string) :=
  match s with
  | String "{" _ => Unsupported
  | String q rest =>
      if is_quantifier q then
        if anchor then Malformed
        else if nullable r then Unsupported
        else
          match rest with
          | String "?" _ | String "+" _ | String "{" _ => Unsupported
          | String "*" _ => Malformed
          | _ =>
              Parsed (if Ascii.eqb q "*" then Star r
                      else if Ascii.eqb q "+" then Cat r (Star r)
                      else Alt r Empty, rest)
          end
      else Parsed (r, s)
  | EmptyString => Parsed (r, s)
  end.

Fixpoint parse_alt (fuel : nat) (s : string) : parsed (node * string) :=
  match fuel with
  | O => Unsupported
  | S fuel' =>
      match parse_seq fuel' s with
      | Parsed (r1, String "|" rest) =>
          match parse_alt fuel' rest with
          | Parsed (r2, rest') => Parsed (Alt r1 r2, rest')
          | e => e
          end
      | p => p
      end
  end
with parse_seq (fuel : nat) (s : string) : parsed (node * string) :=
  match fuel with
  | O => Unsupported
  | S fuel' =>
      match s with
      | EmptyString | String "|" _ | String ")" _ => Parsed (Empty, s)
      | _ =>
          match parse_item fuel' s with
          | Parsed (r1, rest) =>
              match parse_seq fuel' rest with
              | Parsed (Empty, rest') => Parsed (r1, rest')
              | Parsed (r2, rest') => Parsed (Cat r1 r2, rest')
              | e => e
              end
          | e => e
          end
      end
  end
with parse_item (fuel : nat) (s : string) : parsed (node * string) :=
  match fuel with
  | O => Unsupported
  | S fuel' =>
      match s with
      | EmptyString => Parsed (Empty, s)
      | String "(" (String "?" _) => Unsupported
      | String "(" rest =>
          match parse_alt fuel' rest with
          | Parsed (r, String ")" rest') => quantified false r rest'
          | Parsed _ => Malformed
          | e => e
          end
      | String "[" (String "^" rest) =>
          match parse_set rest [] with
          | Parsed (ranges, rest') => quantified false (CharSet true ranges) rest'
          | Malformed => Malformed
          | Unsupported => Unsupported
          end
      | String "[" rest =>
          match parse_set rest [] with
          | Parsed (ranges, rest') => quantified false (CharSet false ranges) rest'
          | Malformed => Malformed
          | Unsupported => Unsupported
          end
      | String "\" EmptyString => Malformed
      | String "\" (String c rest) =>
          if Ascii.eqb c "d" then quantified false (CharSet false [("0"%char, "9"%char)]) rest
          else if is_alnum c || (128 <=? nat_of_ascii c)%nat then Unsupported
          else quantified false (Lit c) rest
      | String "." rest => quantified false AnyChar rest
      | String "^" rest => quantified true Bol rest
      | String "$" rest => quantified true Eol rest
      | String "*" _ | String "+" _ | String "?" _ => Malformed
      | String "{" _ | String "}" _ | String "]" _ => Unsupported
      | String c rest => quantified false (Lit c) rest
      end
  end.

(** The characters that stand for themselves in a pattern. *)
Definition is_plain (c : ascii) : bool :=
  negb (existsb (Ascii.eqb c)
          ["."; "^"; "$"; "*"; "+"; "?"; "{"; "}"; "["; "]"; "\"; "|"; "(";
           ")"]%char).

Fixpoint plain (s : string) : bool :=
  match s with
  | EmptyString => true
  | String c s' => is_plain c && plain s'
  end.

(** The pattern that matches the characters of [s] one after the
    other. *)
Fixpoint literal (s : string) : node :=
  match s with
  | EmptyString => Empty
  | String c EmptyString => Lit c
  | String c s' => Cat (Lit c) (literal s')
  end.

Definition parse (s : string) : parsed node :=
  match parse_alt (3 * String.length s + 3) s with
  | Parsed (r, EmptyString) => Parsed r
  | Parsed (_, _) => Malformed
  | Malformed => Malformed
  | Unsupported => Unsupported
  end.

(** The engine: a pattern that is malformed or outside of the fragment
    does not compile.  On a pattern outside of the fragment that
    [re.compile] accepts, this is not what Python does: the engine
    stands for [re] on the patterns of the fragment only, and is used on
    no other. *)
Definition compile (s : string) : option node :=
  match parse s with
  | Parsed r => Some r
  | _ => None
  end.

Definition engine : re_engine := ReEngine node compile matches.

End Re.

(** ** Reading a trace *)

Definition is_api_call (ev : event) : bool :=
  match ev with
  | EvZonesList _ | EvInstancesList _ _ => true
  | _ => false
  end.

(** The number of requests sent to the Compute API. *)
Definition api_calls (t : list event) : nat :=
  length (List.filter is_api_call t).

(** The command lines of the processes started, in order. *)
Fixpoint commands (t : list event) : list (list string) :=
  match t with
  | [] => []
  | EvExec args _ :: t' => args :: commands t'
  | _ :: t' => commands t'
  end.

(** A zone that discovery keeps: it is in the answer of zones.list, up,
    and of the kind of a zone. *)
Definition kept_zone (zones : list zone) (zone_name : string) : Prop :=
  exists i, i ∈ zones /\ z_status i = Some "UP" /\
            z_kind i = Some "compute#zone" /\ z_name i = Some zone_name.

(** [needle] occurs in [text]. *)
Definition occurs_in (needle text : string) : Prop :=
  exists before after, text = before +:+ needle +:+ after.

(** Every public address that the record of an instance carries, over
    all its network interfaces and all their access configurations. *)
Definition public_addresses (instance : instance) : list string :=
  flat_map (fun ni => omap natIP (default [] (accessConfigs ni)))
           (default [] (networkInterfaces instance)).

(** ** A project to run the script on *)

Module Demo.

Definition nic (ip : string) : network_interface :=
  NetworkInterface (Some [AccessConfig (Some ip)]).

Definition vm (name status ip : string) : instance :=
  Instance (Some name) (Some status) (Some "compute#instance")
           (Some [nic ip]).

(** An instance with an internal address only: its network interface
    has no access configuration. *)
Definition vm_internal (name : string) : instance :=
  Instance (Some name) (Some "RUNNING") (Some "compute#instance")
           (Some [NetworkInterface None]).

Definition web_01 : instance := vm "web-01" "RUNNING" "203.0.113.10".
Definition my_web_01 : instance := vm "my-web-01" "RUNNING" "203.0.113.11".
Definition web_02 : instance := vm "web-02" "TERMINATED" "203.0.113.12".
Definition web_03 : instance := vm_internal "web-03".
Definition web_04 : instance := vm "web-04" "RUNNING" "203.0.113.14".


Definition zone_up (name : string) : zone :=
  Zone (Some name) (Some "UP") (Some "compute#zone").
Definition zone_down (name : string) : zone :=
  Zone (Some name) (Some "DOWN") (Some "compute#zone").

Definition zones : list zone :=
  [zone_up "us-east1-b"; zone_down "us-east1-c"; zone_up "europe-west1-d"].

(** The project [demo]: two zones that are up, one of them without
    instances, and one zone that is down. *)
Definition api : compute_api :=
  ComputeApi
    (fun project =>
       if String.eqb project "demo" then Ok (ListResponse (Some zones))
       else if String.eqb project "idle" then
         Ok (ListResponse (Some [zone_down "us-east1-b"]))
       else if String.eqb project "bare" then Ok (ListResponse None)
       else Raise (ClientError "404"))
    (fun project zone =>
       if String.eqb project "demo" then
         if String.eqb zone "us-east1-b" then
           Ok (ListResponse (Some [web_01; my_web_01; web_02]))
         else if String.eqb zone "us-east1-c" then
           Ok (ListResponse (Some [web_04]))
         else Ok (ListResponse None)
       else Raise (ClientError "404")).

(** The project [lab]: one zone, whose first instance has no public
    address. *)
Definition lab : compute_api :=
  ComputeApi
    (fun _ => Ok (ListResponse (Some [zone_up "us-east1-b"])))
    (fun _ _ => Ok (ListResponse (Some [web_03; web_04]))).

(** A provider whose answers never carry [items]. *)
Definition bare : compute_api :=
  ComputeApi (fun _ => Ok (ListResponse None)) (fun _ _ => Ok (ListResponse None)).

(** A machine on which [dig] answers, [traceroute] fails with status 2
    and everything else succeeds silently. *)
Definition machine (api : compute_api) : host :=
  Host
    (fun args _ =>
       match args with
       | "dig" :: _ => Ok (Process ("198.51.100.7" +:+ String newline EmptyString)
                                   EmptyString 0)
       | "traceroute" :: _ =>
           Ok (Process ("traceroute to host" +:+ String newline EmptyString)
                       "unreachable" 2)
       | _ => Ok (Process EmptyString EmptyString 0)
       end)
    (Ok api).

Definition print_args (pattern : string) : arguments :=
  Arguments_ true (Some "demo") false false pattern.

Definition trace_args (pattern : string) : arguments :=
  Arguments_ false (Some "demo") false false pattern.

(** What discovery finds in [demo] for the pattern [web-]. *)
Definition found : pydict (list instance) :=
  <["europe-west1-d" := []]> (<["us-east1-b" := [web_01]]> ∅).

End Demo.

(** ** What the script reads of a record *)

(** The record of a zone has every key that [get_zone_names] reads of
    it: its status; its kind when it is up; its name when it is up and
    of the kind of a zone. *)
Definition zone_readable (i : zone) : Prop :=
  exists st, z_status i = Some st /\
    (st = "UP" ->
     exists k, z_kind i = Some k /\
       (k = "compute#zone" -> is_Some (z_name i))).

(** The name under which a zone is kept, if it is. *)
Definition kept_name (i : zone) : option string :=
  if bool_decide (z_status i = Some "UP" /\ z_kind i = Some "compute#zone")
  then z_name i else None.

(** The record of an instance has every key that the comprehension of
    [obtain_instances] reads of it. *)
Definition instance_readable (x : instance) : Prop :=
  exists st, i_status x = Some st /\
    (st = "RUNNING" ->
     exists k, i_kind x = Some k /\
       (k = "compute#instance" -> is_Some (i_name x))).

(** The instance is running, of the kind of an instance, and the
    pattern matches its name. *)
Definition instance_matches (E : re_engine) (rx : regex E) (x : instance)
  : bool :=
  bool_decide (i_status x = Some "RUNNING")
  && bool_decide (i_kind x = Some "compute#instance")
  && match i_name x with
     | Some n => re_match E rx n
     | None => false
     end.

(** The text written on the standard output without a line end of its
    own, that is by the [print] calls that relay the output of a
    process. *)
Fixpoint written (t : list event) : string :=
  match t with
  | [] => EmptyString
  | EvWrite text :: t' => text +:+ written t'
  | _ :: t' => written t'
  end.

(** The lines printed with [print(text)], in order. *)
Fixpoint printed (t : list event) : list string :=
  match t with
  | [] => []
  | EvPrint text :: t' => text :: printed t'
  | _ :: t' => printed t'
  end.

(** ** What a run is expected to do *)

(** The command line of [print_dig]. *)
Definition dig_txt : list string :=
  ["dig"; "-t"; "txt"; "o-o.myaddr.l.google.com"; "@ns1.google.com"].

(** The command line of [obtain_default_project]. *)
Definition gcloud_project : list string :=
  ["gcloud"; "config"; "get-value"; "project"].

(** On this host, starting a process whose standard error is piped
    either works or raises an [OSError]. *)
Definition tolerant (h : host) : Prop :=
  forall args e, popen h args StderrPipe = Raise e -> exists msg, e = OSError msg.

(** The commands that the diagnostics of one instance start, when the
    host sees itself as [self_ip]. *)
Definition diagnostics (tr_project_name tr_zone_name self_ip : string)
    (reverse_traceroute : bool) (inst : instance) : list (list string) :=
  match i_name inst, external_ip_of inst with
  | Some name, Ok external_ip =>
      dig_self_ip :: ["traceroute"; external_ip]
      :: (if reverse_traceroute
          then [ssh_traceroute name tr_project_name tr_zone_name self_ip]
          else [])
  | _, _ => []
  end.

(** The line of an instance in the listing of [--print]. *)
Definition address_line (inst : instance) : option string :=
  match i_name inst, external_ip_of inst with
  | Some name, Ok external_ip => Some (name +:+ ": " +:+ external_ip)
  | _, _ => None
  end.


(** The three lines that [main] prints before it builds the client. *)
Definition banner (current_project : string) : list event :=
  [EvPrint ("Project is: " +:+ current_project);
   EvPrint "#################################";
   EvPrint "Obtaining instances..."].

(** The command line once [-d] has been served and the project is known
    to be [current_project]. *)
Definition resolved (current_project : string) (args : arguments)
  : arguments :=
  Arguments_ (a_print args) (Some current_project) false
             (a_reverse_traceroute args) (a_match_pattern args).

(** The commands that [main] may start: [cmd] is one of the five
    command lines of the script, each under the option that asks for
    it. *)
Definition expected_command (args : arguments) (cmd : list string) : Prop :=
  (a_dig args = true /\ cmd = dig_txt) \/
  (a_project args = None /\ cmd = gcloud_project) \/
  (a_print args = false /\
   (cmd = dig_self_ip \/
    (exists external_ip, cmd = ["traceroute"; external_ip]) \/
    (a_reverse_traceroute args = true /\
     exists name tr_project_name tr_zone_name self_ip,
       cmd = ssh_traceroute name tr_project_name tr_zone_name self_ip))).

(** ** More hosts and providers to run the script on *)

Module Lab.

(** A provider whose second zone cannot be listed. *)
Definition flaky : compute_api :=
  ComputeApi
    (fun _ => Ok (ListResponse (Some [Demo.zone_up "us-east1-b";
                                      Demo.zone_up "us-east1-c";
                                      Demo.zone_up "europe-west1-d"])))
    (fun _ zone =>
       if String.eqb zone "us-east1-b" then
         Ok (ListResponse (Some [Demo.web_01]))
       else if String.eqb zone "us-east1-c" then Raise (ClientError "503")
       else Ok (ListResponse None)).

(** A provider whose only zone record carries no status. *)
Definition unlabelled : compute_api :=
  ComputeApi
    (fun _ => Ok (ListResponse
                    (Some [Zone (Some "us-east1-b") None (Some "compute#zone")])))
    (fun _ _ => Ok (ListResponse None)).

Definition not_found : exn := OSError "[Errno 2] No such file or directory".

(** A machine without [dig]. *)
Definition no_dig : host :=
  Host (fun args _ =>
          match args with
          | "dig" :: _ => Raise not_found
          | _ => Ok (Process EmptyString EmptyString 0)
          end)
       (Ok Demo.api).

(** A machine without [traceroute], on which [gcloud config] names the
    project [demo] and every other command succeeds silently. *)
Definition no_traceroute : host :=
  Host (fun args _ =>
          match args with
          | [] => Ok (Process EmptyString EmptyString 0)
          | command :: _ =>
              if String.eqb command "dig" then
                Ok (Process (" 198.51.100.7" +:+ String newline EmptyString)
                            EmptyString 0)
              else if String.eqb command "traceroute" then Raise not_found
              else if bool_decide (args = gcloud_project) then
                Ok (Process ("demo" +:+ String newline EmptyString)
                            "Your active configuration is: [default]" 0)
              else Ok (Process EmptyString EmptyString 0)
          end)
       (Ok Demo.api).

(** A machine on which [gcloud] has no project and no credentials. *)
Definition logged_out : host :=
  Host (fun args _ =>
          match args with
          | "gcloud" :: _ => Ok (Process EmptyString "(unset)" 1)
          | _ => Ok (Process EmptyString EmptyString 0)
          end)
       (Raise (ClientError "DefaultCredentialsError")).

Definition reverse_args (pattern : string) : arguments :=
  Arguments_ false (Some "demo") false true pattern.

Definition default_args (pattern : string) : arguments :=
  Arguments_ true None false false pattern.

Definition dig_args (pattern : string) : arguments :=
  Arguments_ true (Some "demo") true false pattern.

End Lab.

(** * Properties *)

(** Runs the script on a closed input. *)
Ltac run_script := vm_compute; reflexivity.

(** Splits on the 256 values of the character [c], of which [Hc] keeps
    the plain ones. *)
Ltac by_character c Hc :=
  destruct c as [[] [] [] [] [] [] [] []]; intros Hc;
  first [discriminate Hc | reflexivity].

(** ** The dict *)

Section Dict.

Context {A : Type}.

Lemma dict_lookup_empty (k : string) : (∅ : pydict A) !! k = None.
Proof. change ((∅ : gmap string A) !! k = None). apply lookup_empty. Qed.

Lemma dict_lookup_insert (d : pydict A) (k j : string) (v : A) :
  <[k := v]> d !! j = if decide (k = j) then Some v else d !! j.
Proof.
  change (<[k := v]> (dict_map d) !! j
          = if decide (k = j) then Some v else dict_map d !! j).
  apply lookup_insert.
Qed.

Lemma dict_lookup_insert_eq (d : pydict A) (k : string) (v : A) :
  <[k := v]> d !! k = Some v.
Proof. rewrite dict_lookup_insert. by case_decide. Qed.

Lemma dict_lookup_insert_ne (d : pydict A) (k j : string) (v : A) :
  k ≠ j -> <[k := v]> d !! j = d !! j.
Proof. intros Hne. rewrite dict_lookup_insert. by case_decide. Qed.

Lemma dict_elem_of_dom (d : pydict A) (k : string) :
  k ∈ dom d <-> is_Some (d !! k).
Proof.
  change (k ∈ dom (dict_map d) <-> is_Some (dict_map d !! k)).
  apply elem_of_dom.
Qed.

End Dict.

(** ** The monad *)

Lemma bind_ok {A B : Type} (t : list event) (a : A) (k : A -> M B) :
  bind (t, Ok a) k = (t ++ trace (k a), outcome (k a)).
Proof. unfold bind, trace, outcome. by destruct (k a). Qed.


Lemma bind_lift {A B : Type} (r : res A) (k : A -> M B) :
  bind (lift r) k = match r with Ok a => k a | Raise e => ([], Raise e) end.
Proof. unfold lift. destruct r as [a|e]; [|done]. rewrite bind_ok. by destruct (k a). Qed.

Lemma bind_emit {B : Type} (ev : event) (k : unit -> M B) :
  bind (emit ev) k = (ev :: trace (k tt), outcome (k tt)).
Proof. unfold emit. by rewrite bind_ok. Qed.

Lemma surjective_run {A : Type} (m : M A) : m = (trace m, outcome m).
Proof. by destruct m. Qed.

(** ** Listing *)

Lemma list_instances_run (api : compute_api) (project zone : string) :
  list_instances api project zone =
  ([EvInstancesList project zone],
   match instances_execute api project zone with
   | Ok result => Ok (default [] (items result))
   | Raise e => Raise e
   end).
Proof.
  unfold list_instances, instances_list, bind, emit, lift.
  destruct (instances_execute api project zone) as [[[its|]]|e]; reflexivity.
Qed.

Lemma get_zone_names_run (api : compute_api) (project : string) :
  get_zone_names api project =
  ([EvZonesList project],
   result <-? zones_execute api project ;;
   its <-? getitem "items" (items result) ;;
   filtered_list <-? filter_comp zone_is_up its ;;
   map_comp (fun i => getitem "name" (z_name i)) filtered_list).
Proof.
  unfold get_zone_names, zones_list, bind, emit, lift.
  destruct (zones_execute api project) as [result|e]; [|reflexivity].
  cbn. by destruct (rbind _ _).
Qed.

(** C8. When the answer of instances.list has no [items], [list_instances]
    returns the empty list and raises nothing; when it has, it returns
    that very list, in the order of the answer.  Either way it issued
    the one call. *)
Theorem list_instances_items (api : compute_api) (project zone : string)
    (result : list_response instance) :
  instances_execute api project zone = Ok result ->
  trace (list_instances api project zone) = [EvInstancesList project zone] /\
  (items result = None -> outcome (list_instances api project zone) = Ok []) /\
  (forall its, items result = Some its ->
     outcome (list_instances api project zone) = Ok its).
Proof.
  intros Hexec. rewrite list_instances_run, Hexec. cbn.
  split; [done|]. split.
  - by intros ->.
  - by intros its ->.
Qed.

Lemma list_instances_items_witness :
  outcome (list_instances Demo.api "demo" "europe-west1-d") = Ok [] /\
  outcome (list_instances Demo.api "demo" "us-east1-c") = Ok [Demo.web_04].
Proof.
  split.
  - refine (proj1 (proj2 (list_instances_items Demo.api "demo"
              "europe-west1-d" (ListResponse None) _)) _); reflexivity.
  - refine (proj2 (proj2 (list_instances_items Demo.api "demo"
              "us-east1-c" (ListResponse (Some [Demo.web_04])) _)) _ _);
      reflexivity.
Defined.

(** C9. On an answer of zones.list that has no [items], [get_zone_names]
    raises [KeyError] for that key, where [list_instances], on an answer
    of instances.list that has none, returns the empty list. *)
Theorem get_zone_names_needs_items (api : compute_api)
    (project zone : string) :
  zones_execute api project = Ok (ListResponse None) ->
  instances_execute api project zone = Ok (ListResponse None) ->
  get_zone_names api project = ([EvZonesList project], Raise (KeyError "items")) /\
  list_instances api project zone = ([EvInstancesList project zone], Ok []).
Proof.
  intros Hz Hi. rewrite get_zone_names_run, list_instances_run, Hz, Hi.
  done.
Qed.

Lemma get_zone_names_needs_items_witness :
  get_zone_names Demo.bare "demo" = ([EvZonesList "demo"], Raise (KeyError "items")) /\
  list_instances Demo.bare "demo" "us-east1-b" =
    ([EvInstancesList "demo" "us-east1-b"], Ok []).
Proof.
  apply (get_zone_names_needs_items Demo.bare "demo" "us-east1-b"); reflexivity.
Defined.

(** ** Comprehensions *)

Section Comprehensions.

Context {A B : Type}.

Lemma filter_comp_cons (p : A -> res bool) (x : A) (l f : list A) :
  filter_comp p (x :: l) = Ok f ->
  exists b f', p x = Ok b /\ filter_comp p l = Ok f' /\
               f = if b then x :: f' else f'.
Proof.
  cbn. destruct (p x) as [b|e]; [|done]. cbn.
  destruct (filter_comp p l) as [f'|e]; [|done]. cbn.
  intros [= <-]. by exists b, f'.
Qed.

Lemma filter_comp_elem (p : A -> res bool) (l f : list A) (x : A) :
  filter_comp p l = Ok f ->
  x ∈ f <-> x ∈ l /\ p x = Ok true.
Proof.
  revert f. induction l as [|y l IH]; intros f Hf.
  - injection Hf as <-. split; [by intros ?%elem_of_nil | by intros [?%elem_of_nil _]].
  - apply filter_comp_cons in Hf as (b & f' & Hy & Hl & ->).
    specialize (IH f' Hl). destruct b.
    + rewrite !elem_of_cons, IH. split.
      * intros [->|[? ?]]; auto.
      * intros [[->|?] ?]; auto.
    + rewrite elem_of_cons, IH. split.
      * intros [? ?]; auto.
      * intros [[->|?] Hx]; [congruence | auto].
Qed.

Lemma filter_comp_defined (p : A -> res bool) (l f : list A) (x : A) :
  filter_comp p l = Ok f -> x ∈ l -> exists b, p x = Ok b.
Proof.
  revert f. induction l as [|y l IH]; intros f Hf Hx.
  - by apply elem_of_nil in Hx.
  - apply filter_comp_cons in Hf as (b & f' & Hy & Hl & ->).
    apply elem_of_cons in Hx as [->|Hx]; eauto.
Qed.

Lemma filter_comp_sublist (p : A -> res bool) (l f : list A) :
  filter_comp p l = Ok f -> sublist f l.
Proof.
  revert f. induction l as [|y l IH]; intros f Hf.
  - injection Hf as <-. constructor.
  - apply filter_comp_cons in Hf as (b & f' & Hy & Hl & ->).
    destruct b; [apply sublist_skip | apply sublist_cons]; auto.
Qed.

Lemma filter_comp_none (p : A -> res bool) (l : list A) :
  Forall (fun x => p x = Ok false) l -> filter_comp p l = Ok [].
Proof.
  induction 1 as [|x l Hx _ IH]; [done|]. cbn. by rewrite Hx, IH.
Qed.

Lemma map_comp_elem (g : A -> res B) (l : list A) (ys : list B) (y : B) :
  map_comp g l = Ok ys ->
  y ∈ ys <-> exists x, x ∈ l /\ g x = Ok y.
Proof.
  revert ys. induction l as [|x l IH]; intros ys Hys.
  - injection Hys as <-. split; [by intros ?%elem_of_nil|].
    by intros (x & ?%elem_of_nil & _).
  - cbn in Hys. destruct (g x) as [y0|e] eqn:Hx; [|done]. cbn in Hys.
    destruct (map_comp g l) as [ys'|e]; [|done]. injection Hys as <-.
    rewrite elem_of_cons, (IH ys' eq_refl). split.
    + intros [->|(x' & ? & ?)]; [exists x | exists x']; rewrite elem_of_cons; auto.
    + intros (x' & [->|?]%elem_of_cons & Hy); [left; congruence | right; eauto].
Qed.

End Comprehensions.

(** ** Discovery *)

Lemma zone_is_up_true (i : zone) :
  zone_is_up i = Ok true <->
  z_status i = Some "UP" /\ z_kind i = Some "compute#zone".
Proof.
  unfold zone_is_up. destruct (z_status i) as [st|]; cbn; [|by split; [|intros []]].
  destruct (String.eqb_spec st "UP") as [->|Hst].
  - destruct (z_kind i) as [k|]; cbn; [|by split; [|intros []]].
    destruct (String.eqb_spec k "compute#zone") as [->|Hk]; [done|].
    split; [done|]. intros [_ [= ?]]. done.
  - split; [done|]. intros [[= ?] _]. done.
Qed.

Lemma get_zone_names_ok (api : compute_api) (project : string)
    (zone_names : list string) :
  outcome (get_zone_names api project) = Ok zone_names ->
  exists result zones,
    zones_execute api project = Ok result /\ items result = Some zones /\
    forall z, z ∈ zone_names <-> kept_zone zones z.
Proof.
  rewrite get_zone_names_run. cbn.
  destruct (zones_execute api project) as [result|e]; [|done]. cbn.
  destruct (items result) as [zones|] eqn:Hitems; [|done]. cbn.
  destruct (filter_comp zone_is_up zones) as [filtered_list|e] eqn:Hf; [|done].
  cbn. intros Hm. exists result, zones. do 2 (split; [done|]).
  intros z. rewrite (map_comp_elem _ _ _ z Hm). unfold kept_zone.
  split.
  - intros (i & Hi & Hn). apply (filter_comp_elem _ _ _ i Hf) in Hi as [Hi Hup].
    apply zone_is_up_true in Hup as [? ?].
    exists i. destruct (z_name i); [|done]. injection Hn as ->. auto.
  - intros (i & Hi & Hs & Hk & Hn). exists i. split.
    + apply (filter_comp_elem _ _ _ i Hf). split; [done|].
      by apply zone_is_up_true.
    + by rewrite Hn.
Qed.

Section DiscoveryProperties.

Variable E : re_engine.

Lemma instance_selected_true (rx : regex E) (x : instance) :
  instance_selected E rx x = Ok true <->
  i_status x = Some "RUNNING" /\ i_kind x = Some "compute#instance" /\
  exists n, i_name x = Some n /\ re_match E rx n = true.
Proof.
  unfold instance_selected.
  destruct (i_status x) as [st|]; cbn; [|by split; [|intros []]].
  destruct (String.eqb_spec st "RUNNING") as [->|Hst];
    [|split; [done | by intros [[= ?] _]]].
  destruct (i_kind x) as [k|]; cbn; [|by split; [|intros (_ & ? & _)]].
  destruct (String.eqb_spec k "compute#instance") as [->|Hk];
    [|split; [done | by intros (_ & [= ?] & _)]].
  destruct (i_name x) as [n|]; cbn.
  - split.
    + intros [= Hm]. eauto.
    + intros (_ & _ & n' & [= <-] & ->). done.
  - split; [done|]. by intros (_ & _ & n' & ? & _).
Qed.

Lemma obtain_instances_loop_cons (api : compute_api) (project : string)
    (rx : regex E) (zone_name : string) (zone_names : list string)
    (zone_instances : pydict (list instance)) :
  obtain_instances_loop E api project rx (zone_name :: zone_names)
    zone_instances =
  match selected_in E api project rx zone_name with
  | Ok f =>
      let next := obtain_instances_loop E api project rx zone_names
                    (<[zone_name := f]> (<[zone_name := []]> zone_instances)) in
      (EvInstancesList project zone_name :: trace next, outcome next)
  | Raise e => ([EvInstancesList project zone_name], Raise e)
  end.
Proof.
  cbn [obtain_instances_loop]. rewrite list_instances_run. unfold selected_in.
  destruct (instances_execute api project zone_name) as [result|e]; [|done].
  rewrite bind_ok. cbn [rbind trace outcome fst snd]. rewrite bind_lift.
  destruct (filter_comp _ _) as [f|e]; [|done].
  cbn. by destruct (obtain_instances_loop _ _ _ _ _ _).
Qed.

Lemma obtain_instances_loop_trace (api : compute_api) (project : string)
    (rx : regex E) (zone_names : list string)
    (zone_instances : pydict (list instance)) (ev : event) :
  ev ∈ trace (obtain_instances_loop E api project rx zone_names zone_instances) ->
  exists z, z ∈ zone_names /\ ev = EvInstancesList project z.
Proof.
  revert zone_instances.
  induction zone_names as [|z0 zs IH]; intros zone_instances.
  - by intros ?%elem_of_nil.
  - rewrite obtain_instances_loop_cons.
    destruct (selected_in E api project rx z0) as [f|e]; cbn.
    + intros [->|Hev]%elem_of_cons.
      * exists z0. split; [left | done].
      * apply IH in Hev as (z & ? & ->). exists z. split; [by right | done].
    + intros ->%list_elem_of_singleton. exists z0. split; [left | done].
Qed.

Lemma obtain_instances_loop_ok (api : compute_api) (project : string)
    (rx : regex E) (zone_names : list string)
    (zone_instances zone_instances' : pydict (list instance)) :
  outcome (obtain_instances_loop E api project rx zone_names zone_instances)
    = Ok zone_instances' ->
  forall z,
    (z ∈ zone_names ->
       exists f, selected_in E api project rx z = Ok f /\
                 zone_instances' !! z = Some f) /\
    (z ∉ zone_names -> zone_instances' !! z = zone_instances !! z).
Proof.
  revert zone_instances.
  induction zone_names as [|z0 zs IH]; intros zone_instances Hrun z.
  - injection Hrun as <-. split; [by intros ?%elem_of_nil | done].
  - rewrite obtain_instances_loop_cons in Hrun.
    destruct (selected_in E api project rx z0) as [f|e] eqn:Hsel; [|done].
    cbn in Hrun. destruct (IH _ Hrun z) as [Hin Hout].
    destruct (decide (z ∈ zs)) as [Hz|Hz].
    + split; [auto|]. intros Hn. exfalso. apply Hn. by right.
    + split.
      * intros [->|?]%elem_of_cons; [|done].
        exists f. split; [done|]. rewrite (Hout Hz). apply dict_lookup_insert_eq.
      * intros Hn. rewrite (Hout Hz).
        apply not_elem_of_cons in Hn as [Hne _].
        by rewrite !dict_lookup_insert_ne.
Qed.

Lemma obtain_instances_run (api : compute_api) (project : string)
    (match_pattern : string) :
  obtain_instances E api project match_pattern =
  match outcome (get_zone_names api project) with
  | Ok zone_names =>
      match re_compile E match_pattern with
      | Some rx =>
          let loop := obtain_instances_loop E api project rx zone_names ∅ in
          (EvZonesList project :: trace loop, outcome loop)
      | None => ([EvZonesList project], Raise ReError)
      end
  | Raise e => ([EvZonesList project], Raise e)
  end.
Proof.
  unfold obtain_instances. rewrite get_zone_names_run.
  cbn [outcome snd]. destruct (rbind _ _) as [zone_names|e]; [|done].
  rewrite bind_ok, bind_lift. unfold py_re_compile.
  destruct (re_compile E match_pattern) as [rx|]; [|done].
  cbn. by destruct (obtain_instances_loop _ _ _ _ _ _).
Qed.

Lemma obtain_instances_lookup (api : compute_api) (project : string)
    (match_pattern : string) (t : list event)
    (zone_instances : pydict (list instance))
    (zone_name : string) (selected : list instance) :
  obtain_instances E api project match_pattern = (t, Ok zone_instances) ->
  zone_instances !! zone_name = Some selected ->
  exists rx result,
    re_compile E match_pattern = Some rx /\
    instances_execute api project zone_name = Ok result /\
    filter_comp (instance_selected E rx) (default [] (items result))
    = Ok selected.
Proof.
  rewrite obtain_instances_run.
  destruct (outcome (get_zone_names api project)) as [zone_names|e]; [|done].
  destruct (re_compile E match_pattern) as [rx|]; [|done].
  cbn. intros [= _ Hloop] Hsel.
  destruct (obtain_instances_loop_ok _ _ _ _ _ _ Hloop zone_name) as [Hin Hout].
  destruct (decide (zone_name ∈ zone_names)) as [Hz|Hz].
  - destruct (Hin Hz) as (f & Hf & Hlook).
    assert (f = selected) as -> by congruence.
    unfold selected_in in Hf.
    destruct (instances_execute api project zone_name) as [result|e]; [|done].
    by exists rx, result.
  - rewrite (Hout Hz), dict_lookup_empty in Hsel. done.
Qed.

(** C1. In the mapping that discovery returns, an instance that the
    provider lists for a zone is among the instances of that zone if and
    only if its status is RUNNING, its kind is compute#instance and the
    compiled pattern matches its name ([regex.match], which matches at
    position 0 and need not reach the end of the name).  The instances
    kept come in the order of the provider's answer. *)
Theorem obtain_instances_selects (api : compute_api) (project : string)
    (match_pattern : string) (t : list event)
    (zone_instances : pydict (list instance))
    (zone_name : string) (selected : list instance) :
  obtain_instances E api project match_pattern = (t, Ok zone_instances) ->
  zone_instances !! zone_name = Some selected ->
  exists rx result,
    re_compile E match_pattern = Some rx /\
    instances_execute api project zone_name = Ok result /\
    sublist selected (default [] (items result)) /\
    forall x, x ∈ default [] (items result) ->
      (x ∈ selected <->
       i_status x = Some "RUNNING" /\ i_kind x = Some "compute#instance" /\
       exists n, i_name x = Some n /\ re_match E rx n = true).
Proof.
  intros Hrun Hsel.
  destruct (obtain_instances_lookup _ _ _ _ _ _ _ Hrun Hsel)
    as (rx & result & Hrx & Hexec & Hf).
  exists rx, result. do 2 (split; [done|]).
  split; [by eapply filter_comp_sublist|].
  intros x Hx. rewrite (filter_comp_elem _ _ _ x Hf), instance_selected_true.
  tauto.
Qed.

(** C4, as the script has it.  When the answer of zones.list carries
    items: the keys of the mapping that discovery returns are the names
    of the zones of the answer that are up and of the kind of a zone,
    whatever was selected in them; instances.list is only called for
    such a zone of the project; and when every record of the answer
    carries a status other than UP and the pattern compiles, discovery
    returns the empty mapping after the one call of zones.list. *)
Theorem obtain_instances_keys (api : compute_api) (project : string)
    (match_pattern : string) (result : list_response zone)
    (zones : list zone) :
  zones_execute api project = Ok result ->
  items result = Some zones ->
  (forall t zone_instances,
     obtain_instances E api project match_pattern = (t, Ok zone_instances) ->
     forall z, z ∈ dom zone_instances <-> kept_zone zones z) /\
  (forall p z,
     EvInstancesList p z ∈ trace (obtain_instances E api project match_pattern) ->
     p = project /\ kept_zone zones z) /\
  (forall rx,
     re_compile E match_pattern = Some rx ->
     Forall (fun i => exists st, z_status i = Some st /\ st ≠ "UP") zones ->
     obtain_instances E api project match_pattern =
       ([EvZonesList project], Ok ∅)).
Proof.
  intros Hexec Hitems.
  assert (forall zone_names,
            outcome (get_zone_names api project) = Ok zone_names ->
            forall z, z ∈ zone_names <-> kept_zone zones z) as Hnames.
  { intros zone_names (result' & zones' & Hexec' & Hitems' & Hk)%get_zone_names_ok.
    rewrite Hexec in Hexec'. injection Hexec' as <-.
    rewrite Hitems in Hitems'. by injection Hitems' as <-. }
  split; [|split].
  - intros t zone_instances. rewrite obtain_instances_run.
    destruct (outcome (get_zone_names api project)) as [zone_names|e]; [|done].
    destruct (re_compile E match_pattern) as [rx|]; [|done].
    cbn. intros [= _ Hloop] z. rewrite <- (Hnames zone_names eq_refl z).
    destruct (obtain_instances_loop_ok _ _ _ _ _ _ Hloop z) as [Hin Hout].
    rewrite dict_elem_of_dom. split.
    + intros Hsome. destruct (decide (z ∈ zone_names)) as [Hz|Hz]; [done|].
      rewrite (Hout Hz), dict_lookup_empty in Hsome. by destruct Hsome.
    + intros Hz. destruct (Hin Hz) as (f & _ & ->). eauto.
  - intros p z. rewrite obtain_instances_run.
    destruct (outcome (get_zone_names api project)) as [zone_names|e];
      [|by intros [=]%list_elem_of_singleton].
    destruct (re_compile E match_pattern) as [rx|];
      [|by intros [=]%list_elem_of_singleton].
    cbn. intros [[=]|Hev]%elem_of_cons.
    apply obtain_instances_loop_trace in Hev as (z' & Hz' & [= -> ->]).
    split; [done|]. by apply (Hnames zone_names eq_refl).
  - intros rx Hrx Hdown. rewrite obtain_instances_run, get_zone_names_run.
    rewrite Hexec. cbn. rewrite Hitems. cbn.
    rewrite filter_comp_none; [cbn; by rewrite Hrx|].
    eapply Forall_impl; [exact Hdown|]. intros i (st & Hst & Hne).
    unfold zone_is_up. rewrite Hst. cbn.
    by destruct (String.eqb_spec st "UP").
Qed.

(** C2, as the script has it.  On a pattern that [re.compile] rejects,
    discovery has sent the one request zones.list by the time it fails,
    and no instances.list: it fails with the pattern error when the
    zones were listed, and with the error of the listing otherwise. *)
Theorem obtain_instances_invalid_pattern (api : compute_api)
    (project match_pattern : string) :
  re_compile E match_pattern = None ->
  trace (obtain_instances E api project match_pattern) = [EvZonesList project] /\
  api_calls (trace (obtain_instances E api project match_pattern)) = 1 /\
  (forall zone_names,
     outcome (get_zone_names api project) = Ok zone_names ->
     outcome (obtain_instances E api project match_pattern) = Raise ReError) /\
  (forall e,
     outcome (get_zone_names api project) = Raise e ->
     outcome (obtain_instances E api project match_pattern) = Raise e).
Proof.
  intros Hbad. rewrite obtain_instances_run, Hbad.
  destruct (outcome (get_zone_names api project)) as [zone_names|e]; cbn.
  - do 2 (split; [done|]). split; [done|]. by intros e [=].
  - do 2 (split; [done|]). split; [by intros zs [=]|]. by intros e' [= ->].
Qed.

End DiscoveryProperties.

Lemma obtain_instances_selects_witness :
  exists rx result,
    re_compile Re.engine "web-" = Some rx /\
    instances_execute Demo.api "demo" "us-east1-b" = Ok result /\
    sublist [Demo.web_01] (default [] (items result)) /\
    forall x, x ∈ default [] (items result) ->
      (x ∈ [Demo.web_01] <->
       i_status x = Some "RUNNING" /\ i_kind x = Some "compute#instance" /\
       exists n, i_name x = Some n /\ re_match Re.engine rx n = true).
Proof.
  apply (obtain_instances_selects Re.engine Demo.api "demo" "web-"
           (trace (obtain_instances Re.engine Demo.api "demo" "web-"))
           Demo.found "us-east1-b" [Demo.web_01]);
    run_script.
Defined.

(** The pattern [web-] selects [web-01] and not [my-web-01]: the match
    starts at position 0 and stops before the end of the name. *)
Example web_prefix_selected :
  obtain_instances Re.engine Demo.api "demo" "web-"
  = ([EvZonesList "demo"; EvInstancesList "demo" "us-east1-b";
      EvInstancesList "demo" "europe-west1-d"], Ok Demo.found) /\
  Demo.found !! "us-east1-b" = Some [Demo.web_01] /\
  Demo.found !! "europe-west1-d" = Some [] /\
  Demo.found !! "us-east1-c" = None.
Proof. repeat split; run_script. Qed.

Example match_starts_at_position_0 :
  exists rx, Re.compile "web-" = Some rx /\
             Re.matches rx "web-01" = true /\
             Re.matches rx "my-web-01" = false /\
             Re.matches rx "web" = false.
Proof. eexists. repeat split; run_script. Qed.

Example match_anchored_at_both_ends :
  exists rx, Re.compile "^worker-[0-9]+$" = Some rx /\
             Re.matches rx "worker-12" = true /\
             Re.matches rx "worker-12a" = false /\
             Re.matches rx "a-worker-12" = false.
Proof. eexists. repeat split; run_script. Qed.

Lemma obtain_instances_keys_witness :
  (forall z, z ∈ dom Demo.found <-> kept_zone Demo.zones z) /\
  obtain_instances Re.engine Demo.api "idle" "web-"
  = ([EvZonesList "idle"], Ok ∅).
Proof.
  split.
  - refine (proj1 (obtain_instances_keys Re.engine Demo.api "demo" "web-"
                     (ListResponse (Some Demo.zones)) Demo.zones
                     eq_refl eq_refl) _ Demo.found _).
    run_script.
  - refine (proj2 (proj2 (obtain_instances_keys Re.engine Demo.api "idle"
                            "web-" (ListResponse (Some [Demo.zone_down "us-east1-b"]))
                            [Demo.zone_down "us-east1-b"] eq_refl eq_refl))
                  (Re.Cat (Re.Lit "w") (Re.Cat (Re.Lit "e")
                     (Re.Cat (Re.Lit "b") (Re.Lit "-")))) eq_refl _).
    repeat constructor. exists "DOWN". split; [reflexivity | discriminate].
Defined.

(** C4 fails as stated: a project without a zone that is up does not
    always give the empty mapping.  Discovery raises when the answer of
    zones.list has no items, when the pattern does not compile, and when
    a record has no status. *)
Lemma zero_up_zones_counterexample :
  zones_execute Demo.api "bare" = Ok (ListResponse None) /\
  obtain_instances Re.engine Demo.api "bare" "web-"
  = ([EvZonesList "bare"], Raise (KeyError "items")) /\
  zones_execute Demo.api "idle"
  = Ok (ListResponse (Some [Demo.zone_down "us-east1-b"])) /\
  obtain_instances Re.engine Demo.api "idle" "("
  = ([EvZonesList "idle"], Raise ReError) /\
  obtain_instances Re.engine Lab.unlabelled "demo" "web-"
  = ([EvZonesList "demo"], Raise (KeyError "status")).
Proof. repeat split; run_script. Qed.

(** C2 fails as stated: on the pattern [(], which [re.compile] rejects,
    discovery has called zones.list before it fails. *)
Lemma invalid_pattern_counterexample :
  Re.parse "(" = Re.Malformed /\
  re_compile Re.engine "(" = None /\
  obtain_instances Re.engine Demo.api "demo" "("
  = ([EvZonesList "demo"], Raise ReError) /\
  api_calls (trace (obtain_instances Re.engine Demo.api "demo" "(")) <> 0.
Proof. repeat split; vm_compute; done. Qed.

Lemma obtain_instances_invalid_pattern_witness :
  trace (obtain_instances Re.engine Demo.api "demo" "(") = [EvZonesList "demo"] /\
  api_calls (trace (obtain_instances Re.engine Demo.api "demo" "(")) = 1 /\
  (forall zone_names,
     outcome (get_zone_names Demo.api "demo") = Ok zone_names ->
     outcome (obtain_instances Re.engine Demo.api "demo" "(") = Raise ReError) /\
  (forall e,
     outcome (get_zone_names Demo.api "demo") = Raise e ->
     outcome (obtain_instances Re.engine Demo.api "demo" "(") = Raise e).
Proof.
  apply (obtain_instances_invalid_pattern Re.engine Demo.api "demo" "(").
  reflexivity.
Defined.

(** ** Processes and printing *)

Lemma append_assoc (s1 s2 s3 : string) :
  (s1 +:+ s2) +:+ s3 = s1 +:+ s2 +:+ s3.
Proof.
  induction s1 as [|c s1 IH]; [reflexivity|].
  change (String c ((s1 +:+ s2) +:+ s3) = String c (s1 +:+ s2 +:+ s3)).
  by rewrite IH.
Qed.

Lemma occurs_in_append_r (needle before text : string) :
  occurs_in needle text -> occurs_in needle (before +:+ text).
Proof.
  intros (b & a & ->). exists (before +:+ b), a. by rewrite append_assoc.
Qed.

Lemma occurs_in_append_l (needle text after : string) :
  occurs_in needle text -> occurs_in needle (text +:+ after).
Proof.
  intros (b & a & ->). exists b, (a +:+ after). by rewrite !append_assoc.
Qed.

Lemma occurs_in_here (needle after : string) : occurs_in needle (needle +:+ after).
Proof. by exists EmptyString, after. Qed.

Lemma commands_app (t1 t2 : list event) :
  commands (t1 ++ t2) = commands t1 ++ commands t2.
Proof.
  induction t1 as [|ev t1 IH]; [done|]. destruct ev; cbn; by rewrite ?IH.
Qed.

Lemma for_each_emit {A : Type} (f : A -> event) (l : list A) :
  for_each (fun x => emit (f x)) l = (map f l, Ok tt).
Proof.
  induction l as [|x l IH]; [done|]. cbn [for_each]. by rewrite bind_emit, IH.
Qed.

Lemma commands_writes (lines : list string) : commands (map EvWrite lines) = [].
Proof. by induction lines. Qed.

Lemma print_subprocess_run (h : host) (proc_name : string)
    (proc_args : list string) :
  print_subprocess h proc_name proc_args =
  match popen h proc_args StderrPipe with
  | Ok proc =>
      (EvExec proc_args StderrPipe :: map EvWrite (readlines (stdout proc))
       ++ [EvPrint
             (if Z.eqb (returncode proc) 0 then EmptyString
              else error_report proc_name
                     ("[FROM VM]: " +:+ strip (stderr proc))
                     (join " " proc_args))],
       Ok tt)
  | Raise (OSError msg) =>
      ([EvExec proc_args StderrPipe;
        EvPrint (error_report proc_name msg (join " " proc_args))], Ok tt)
  | Raise e => ([EvExec proc_args StderrPipe], Raise e)
  end.
Proof.
  unfold print_subprocess, Popen. rewrite bind_emit.
  destruct (popen h proc_args StderrPipe) as [proc|e].
  - cbn [lift trace outcome fst snd]. rewrite bind_ok, for_each_emit, bind_ok.
    destruct (Z.eqb (returncode proc) 0);
      cbn [negb raise emit trace outcome fst snd try_except_OSError app];
      by rewrite ?app_nil_r.
  - by destruct e.
Qed.

Lemma print_subprocess_commands (h : host) (proc_name : string)
    (proc_args : list string) :
  commands (trace (print_subprocess h proc_name proc_args)) = [proc_args].
Proof.
  rewrite print_subprocess_run.
  destruct (popen h proc_args StderrPipe) as [proc|e].
  - cbn. by rewrite commands_app, commands_writes.
  - by destruct e.
Qed.

(** ** The actions *)

Lemma obtain_self_ip_run (h : host) :
  obtain_self_ip h =
  ([EvExec dig_self_ip StderrInherit],
   match popen h dig_self_ip StderrInherit with
   | Ok proc =>
       if Z.eqb (returncode proc) 0 then Ok (strip (stdout proc))
       else Raise (CalledProcessError (returncode proc))
   | Raise e => Raise e
   end).
Proof.
  unfold obtain_self_ip, check_output, Popen, bind, emit, lift, ret, raise.
  destruct (popen h dig_self_ip StderrInherit) as [proc|e]; [|done].
  by destruct (Z.eqb (returncode proc) 0).
Qed.

Lemma traceroute_instance_run (h : host) (instance : instance)
    (tr_project_name tr_zone_name : string) (reverse_traceroute : bool)
    (name external_ip : string) :
  i_name instance = Some name ->
  external_ip_of instance = Ok external_ip ->
  traceroute_instance h instance tr_project_name tr_zone_name
    reverse_traceroute =
  match outcome (obtain_self_ip h) with
  | Raise e => ([EvExec dig_self_ip StderrInherit], Raise e)
  | Ok self_ip =>
      let fwd := print_subprocess h "Traceroute" ["traceroute"; external_ip] in
      let start :=
        EvExec dig_self_ip StderrInherit
        :: EvPrint ("Traceroute TO " +:+ name +:+ ": " +:+ self_ip +:+ " -> "
                    +:+ external_ip)
        :: trace fwd in
      match outcome fwd with
      | Raise e => (start, Raise e)
      | Ok _ =>
          if reverse_traceroute then
            let bwd := print_subprocess h "Reverse Traceroute"
                         (ssh_traceroute name tr_project_name tr_zone_name
                            self_ip) in
            (start ++
             EvPrint ("Traceroute FROM " +:+ name +:+ ": " +:+ external_ip
                      +:+ " -> " +:+ self_ip) :: trace bwd,
             outcome bwd)
          else (start, Ok tt)
      end
  end.
Proof.
  intros Hname Hip. unfold traceroute_instance.
  rewrite Hname, Hip. cbn [getitem]. rewrite !bind_lift, obtain_self_ip_run.
  cbn [outcome snd].
  destruct (match popen h dig_self_ip StderrInherit with Ok _ => _ | Raise e => _ end)
    as [self_ip|e]; [|done].
  rewrite bind_ok, bind_emit. cbn [trace outcome fst snd app].
  destruct (print_subprocess h "Traceroute" ["traceroute"; external_ip])
    as [t [[]|e]]; [|done].
  rewrite bind_ok. cbn [trace outcome fst snd app]. destruct reverse_traceroute.
  - rewrite bind_emit. cbn [trace outcome fst snd]. done.
  - cbn. by rewrite app_nil_r.
Qed.

Lemma traceroute_instance_raise (h : host) (instance : instance)
    (tr_project_name tr_zone_name : string) (reverse_traceroute : bool) :
  traceroute_instance h instance tr_project_name tr_zone_name
    reverse_traceroute =
  match (name <-? getitem "name" (i_name instance) ;;
         external_ip_of instance) with
  | Raise e => ([], Raise e)
  | Ok _ =>
      traceroute_instance h instance tr_project_name tr_zone_name
        reverse_traceroute
  end.
Proof.
  unfold traceroute_instance. destruct (i_name instance) as [name|]; [|done].
  cbn [getitem rbind]. rewrite bind_lift.
  destruct (external_ip_of instance) as [ip|e]; [done|].
  by rewrite bind_lift.
Qed.

Lemma print_instance_run (instance : instance) :
  print_instance instance =
  match (name <-? getitem "name" (i_name instance) ;;
         external_ip <-? external_ip_of instance ;;
         Ok (name +:+ ": " +:+ external_ip)) with
  | Ok line => ([EvPrint line], Ok tt)
  | Raise e => ([], Raise e)
  end.
Proof.
  unfold print_instance. destruct (i_name instance) as [name|]; [|done].
  cbn [getitem rbind]. rewrite bind_lift.
  destruct (external_ip_of instance) as [ip|e]; [|by rewrite bind_lift].
  by rewrite bind_lift.
Qed.


Lemma no_public_address (instance : instance) :
  public_addresses instance = [] ->
  exists e, external_ip_of instance = Raise e /\
            (e = IndexError \/ exists key, e = KeyError key).
Proof.
  unfold public_addresses, external_ip_of.
  destruct (networkInterfaces instance) as [[|ni nis]|]; cbn; eauto.
  destruct (accessConfigs ni) as [[|ac acs]|]; cbn; eauto.
  destruct (natIP ac) as [ip|]; cbn; [done | eauto].
Qed.

Lemma trace_bind {A B : Type} (m : M A) (k : A -> M B) :
  trace (bind m k) =
  trace m ++ match outcome m with Ok a => trace (k a) | Raise _ => [] end.
Proof.
  destruct m as [t [a|e]]; cbn; [|by rewrite app_nil_r]. by destruct (k a).
Qed.


Lemma for_each_raise {A : Type} (body : A -> M unit) (x : A) (l : list A)
    (t : list event) (e : exn) :
  body x = (t, Raise e) -> for_each body (x :: l) = (t, Raise e).
Proof. intros Hx. cbn [for_each]. by rewrite Hx. Qed.

(** C3, as the script has it.  For the record of an instance that
    carries no public address at all, [traceroute_instance] and
    [print_instance] raise a lookup error ([KeyError] or [IndexError])
    before they print anything or start any process, so that no
    traceroute is run for it; nothing catches the error: the loop over
    the instances of the zone ends with it, whatever instances follow. *)
Theorem no_public_address_raises (h : host) (args : arguments)
    (current_project zone_name : string) (others : list instance)
    (instance : instance) :
  public_addresses instance = [] ->
  exists e,
    (e = IndexError \/ exists key, e = KeyError key) /\
    (forall reverse_traceroute,
       traceroute_instance h instance current_project zone_name
         reverse_traceroute = ([], Raise e)) /\
    print_instance instance = ([], Raise e) /\
    for_each (report_instance h args current_project zone_name)
      (instance :: others) = ([], Raise e).
Proof.
  intros (e & Hip & He)%no_public_address.
  assert (exists e', (e' = IndexError \/ exists key, e' = KeyError key) /\
            (name <-? getitem "name" (i_name instance) ;;
             external_ip_of instance) = Raise e') as (e' & He' & Hraise).
  { destruct (i_name instance) as [name|]; cbn; [|by eauto 6].
    rewrite Hip. eauto. }
  assert (forall r, traceroute_instance h instance current_project zone_name r
                    = ([], Raise e')) as Htr.
  { intros r. by rewrite traceroute_instance_raise, Hraise. }
  assert (print_instance instance = ([], Raise e')) as Hpr.
  { rewrite print_instance_run. destruct (i_name instance) as [name|]; cbn in *.
    - rewrite Hip in *. cbn. congruence.
    - congruence. }
  exists e'. repeat split; try done.
  apply for_each_raise. unfold report_instance. by destruct (a_print args).
Qed.

(** C5. When the command that [print_subprocess] runs ends with a status
    other than 0, the call prints the lines of its standard output and
    then one report, and returns normally.  The report holds the name
    given for the command, the text read from its standard error
    (without the white space around it) and the command line. *)
Theorem print_subprocess_failure (h : host) (proc_name : string)
    (proc_args : list string) (proc : process) :
  popen h proc_args StderrPipe = Ok proc ->
  returncode proc <> 0%Z ->
  exists report,
    print_subprocess h proc_name proc_args =
      (EvExec proc_args StderrPipe
       :: map EvWrite (readlines (stdout proc)) ++ [EvPrint report], Ok tt) /\
    occurs_in proc_name report /\
    occurs_in (strip (stderr proc)) report /\
    occurs_in (join " " proc_args) report.
Proof.
  intros Hproc Hrc. rewrite print_subprocess_run, Hproc.
  apply Z.eqb_neq in Hrc. rewrite Hrc. eexists. split; [reflexivity|].
  unfold error_report. split; [|split].
  - apply occurs_in_append_r, occurs_in_here.
  - do 3 apply occurs_in_append_r. rewrite append_assoc.
    apply occurs_in_append_r, occurs_in_here.
  - do 4 apply occurs_in_append_r.
    apply (occurs_in_append_r _ (String newline "CALL: ")), occurs_in_here.
Qed.






(** ** The script at work on the sample projects *)

(** C3 fails as stated: [web-03] has no public address; the lookup of
    its address raises [KeyError], which leaves [main], and [web-04],
    which follows it in the zone and has an address, is never reached. *)
Lemma no_public_address_counterexample :
  public_addresses Demo.web_03 = [] /\
  traceroute_instance (Demo.machine Demo.lab) Demo.web_03 "demo" "us-east1-b"
    false = ([], Raise (KeyError "accessConfigs")) /\
  print_instance Demo.web_03 = ([], Raise (KeyError "accessConfigs")) /\
  main Re.engine (Demo.machine Demo.lab) (Demo.trace_args "web-")
  = ([EvPrint "Project is: demo";
      EvPrint "#################################";
      EvPrint "Obtaining instances..."; EvBuildApi;
      EvZonesList "demo"; EvInstancesList "demo" "us-east1-b";
      EvPrint EmptyString; EvPrint "Instances in us-east1-b";
      EvPrint "----------------------------------------"],
     Raise (KeyError "accessConfigs")) /\
  outcome (main Re.engine (Demo.machine Demo.lab) (Demo.print_args "web-"))
  = Raise (KeyError "accessConfigs").
Proof. repeat split; run_script. Qed.

Lemma no_public_address_raises_witness :
  exists e,
    (e = IndexError \/ exists key, e = KeyError key) /\
    (forall reverse_traceroute,
       traceroute_instance (Demo.machine Demo.lab) Demo.web_03 "demo"
         "us-east1-b" reverse_traceroute = ([], Raise e)) /\
    print_instance Demo.web_03 = ([], Raise e) /\
    for_each (report_instance (Demo.machine Demo.lab) (Demo.trace_args "web-")
                "demo" "us-east1-b")
      [Demo.web_03; Demo.web_04] = ([], Raise e).
Proof.
  apply (no_public_address_raises (Demo.machine Demo.lab)
           (Demo.trace_args "web-") "demo" "us-east1-b" [Demo.web_04]
           Demo.web_03).
  reflexivity.
Defined.

Lemma print_subprocess_failure_witness :
  exists report,
    print_subprocess (Demo.machine Demo.api) "Traceroute"
      ["traceroute"; "203.0.113.10"]
    = (EvExec ["traceroute"; "203.0.113.10"] StderrPipe
       :: map EvWrite (readlines ("traceroute to host" +:+ String newline EmptyString))
       ++ [EvPrint report], Ok tt) /\
    occurs_in "Traceroute" report /\
    occurs_in (strip "unreachable") report /\
    occurs_in (join " " ["traceroute"; "203.0.113.10"]) report.
Proof.
  apply (print_subprocess_failure (Demo.machine Demo.api) "Traceroute"
           ["traceroute"; "203.0.113.10"]
           (Process ("traceroute to host" +:+ String newline EmptyString)
                    "unreachable" 2)).
  - reflexivity.
  - discriminate.
Defined.

(** A command that ends with status 2 after it wrote [unreachable] on
    its standard error. *)
Example unreachable_is_reported :
  print_subprocess (Demo.machine Demo.api) "Traceroute"
    ["traceroute"; "203.0.113.10"]
  = ([EvExec ["traceroute"; "203.0.113.10"] StderrPipe;
      EvWrite ("traceroute to host" +:+ String newline EmptyString);
      EvPrint ("Error running Traceroute: [FROM VM]: unreachable"
               +:+ String newline "CALL: traceroute 203.0.113.10"
               +:+ String newline EmptyString)], Ok tt) /\
  strip "unreachable" = "unreachable" /\
  strip (String newline " unreachable " +:+ String newline EmptyString)
  = "unreachable".
Proof. repeat split; run_script. Qed.



Example reverse_traceroute_commands :
  commands (trace (traceroute_instance (Demo.machine Demo.api) Demo.web_01
                     "demo" "us-east1-b" true))
  = [dig_self_ip; ["traceroute"; "203.0.113.10"];
     ["gcloud"; "compute"; "ssh"; "web-01"; "--project"; "demo"; "--zone";
      "us-east1-b"; "--command"; "traceroute 198.51.100.7"]].
Proof. run_script. Qed.

Example print_mode_run :
  main Re.engine (Demo.machine Demo.api) (Demo.print_args "web-")
  = ([EvPrint "Project is: demo";
      EvPrint "#################################";
      EvPrint "Obtaining instances..."; EvBuildApi;
      EvZonesList "demo"; EvInstancesList "demo" "us-east1-b";
      EvInstancesList "demo" "europe-west1-d";
      EvPrint EmptyString; EvPrint "Instances in us-east1-b";
      EvPrint "----------------------------------------";
      EvPrint "web-01: 203.0.113.10"], Ok tt).
Proof. run_script. Qed.


(** ** The reference engine on literal patterns *)

Module ReFacts.
Import Re.

Lemma parse_item_plain (c : ascii) (rest : string) (fuel : nat) :
  is_plain c = true ->
  parse_item (S fuel) (String c rest) = quantified false (Lit c) rest.
Proof.
  by_character c Hc.
Qed.

Lemma quantified_plain (r : node) (c : ascii) (rest : string) :
  is_plain c = true ->
  quantified false r (String c rest) = Parsed (r, String c rest).
Proof.
  by_character c Hc.
Qed.

Lemma parse_seq_start (c : ascii) (rest : string) (fuel : nat) :
  is_plain c = true ->
  parse_seq (S fuel) (String c rest) =
  match parse_item fuel (String c rest) with
  | Parsed (r1, rest1) =>
      match parse_seq fuel rest1 with
      | Parsed (Empty, rest') => Parsed (r1, rest')
      | Parsed (r2, rest') => Parsed (Cat r1 r2, rest')
      | e => e
      end
  | e => e
  end.
Proof.
  by_character c Hc.
Qed.

Lemma literal_cons (c : ascii) (s : string) :
  literal (String c s) =
  match literal s with
  | Empty => Lit c
  | r => Cat (Lit c) r
  end.
Proof.
  destruct s as [|d s]; [reflexivity|].
  change (literal (String c (String d s)))
    with (Cat (Lit c) (literal (String d s))).
  by destruct s.
Qed.

Lemma parse_seq_plain (s : string) (fuel : nat) :
  plain s = true ->
  2 * String.length s + 1 <= fuel ->
  parse_seq fuel s = Parsed (literal s, EmptyString).
Proof.
  revert fuel. induction s as [|c s IH]; intros fuel Hs Hfuel.
  - destruct fuel; [cbn in Hfuel; lia | reflexivity].
  - cbn [plain] in Hs. apply andb_prop in Hs as [Hc Hs].
    cbn [String.length] in Hfuel.
    destruct fuel as [|[|fuel]]; [lia | lia |].
    rewrite (parse_seq_start _ _ _ Hc), (parse_item_plain _ _ _ Hc).
    assert (quantified false (Lit c) s = Parsed (Lit c, s)) as ->.
    { destruct s as [|d s]; [reflexivity|].
      cbn [plain] in Hs. apply andb_prop in Hs as [Hd _].
      by apply quantified_plain. }
    rewrite (IH (S fuel) Hs) by lia. rewrite literal_cons.
    by destruct (literal s).
Qed.

Lemma parse_plain (s : string) :
  plain s = true -> parse s = Parsed (literal s).
Proof.
  intros Hs. unfold parse.
  assert (parse_alt (3 * String.length s + 3) s
          = Parsed (literal s, EmptyString)) as ->; [|done].
  replace (3 * String.length s + 3) with (S (3 * String.length s + 2)) by lia.
  cbn [parse_alt]. by rewrite (parse_seq_plain s _ Hs) by lia.
Qed.

Lemma run_literal (p s : string) (bol : bool) :
  run (literal p) bol s (fun _ _ => true) = String.prefix p s.
Proof.
  revert s bol. induction p as [|c p IH]; intros s bol.
  - by destruct s.
  - rewrite literal_cons.
    assert (run (Cat (Lit c) (literal p)) bol s (fun _ _ => true)
            = String.prefix (String c p) s) as Hcat.
    { cbn [run]. destruct s as [|d s]; [done|]. cbn [String.prefix].
      rewrite IH. destruct (ascii_dec c d) as [->|Hne].
      - by rewrite Ascii.eqb_refl.
      - apply Ascii.eqb_neq in Hne. by rewrite Hne. }
    destruct (literal p); exact Hcat.
Qed.

Lemma matches_literal (p s : string) :
  matches (literal p) s = String.prefix p s.
Proof. apply run_literal. Qed.

(** On a pattern made of plain characters, the engine compiles and
    [match] tells whether the pattern is a prefix of the string. *)
Lemma literal_pattern_is_prefix (p s : string) :
  plain p = true ->
  exists rx, re_compile engine p = Some rx /\
             re_match engine rx s = String.prefix p s.
Proof.
  intros Hp. exists (literal p). split.
  - cbn. unfold compile. by rewrite parse_plain.
  - apply matches_literal.
Qed.

End ReFacts.

(** Discovery with the reference engine on a pattern of plain
    characters: the instances kept for a zone are those that are
    running, of the kind of an instance, and whose name starts with the
    pattern; the name may go on after it. *)
Lemma obtain_instances_plain_pattern (api : compute_api)
    (project match_pattern : string) (t : list event)
    (zone_instances : pydict (list instance))
    (zone_name : string) (selected : list instance) :
  Re.plain match_pattern = true ->
  obtain_instances Re.engine api project match_pattern
  = (t, Ok zone_instances) ->
  zone_instances !! zone_name = Some selected ->
  exists result,
    instances_execute api project zone_name = Ok result /\
    forall x, x ∈ default [] (items result) ->
      (x ∈ selected <->
       i_status x = Some "RUNNING" /\ i_kind x = Some "compute#instance" /\
       exists n, i_name x = Some n /\ String.prefix match_pattern n = true).
Proof.
  intros Hplain Hrun Hsel.
  destruct (obtain_instances_lookup _ _ _ _ _ _ _ _ Hrun Hsel)
    as (rx & result & Hrx & Hexec & Hf).
  exists result. split; [done|]. intros x Hx.
  rewrite (filter_comp_elem _ _ _ x Hf), instance_selected_true.
  assert (forall n, re_match Re.engine rx n = String.prefix match_pattern n)
    as Hprefix.
  { intros n.
    destruct (ReFacts.literal_pattern_is_prefix match_pattern n Hplain)
      as (rx' & Hrx' & Hm).
    rewrite Hrx in Hrx'. by injection Hrx' as <-. }
  split.
  - intros (_ & ? & ? & n & ? & Hm). rewrite Hprefix in Hm. eauto 6.
  - intros (? & ? & n & ? & Hm). rewrite <- Hprefix in Hm. eauto 6.
Qed.

(** * More on the script *)

(** ** Listing the zones *)

Lemma zone_is_up_readable (i : zone) :
  zone_readable i ->
  zone_is_up i
  = Ok (bool_decide (z_status i = Some "UP" /\ z_kind i = Some "compute#zone"))
  /\ (zone_is_up i = Ok true -> is_Some (z_name i)).
Proof.
  intros (st & Hst & Hup). unfold zone_is_up. rewrite Hst. cbn.
  destruct (String.eqb_spec st "UP") as [->|Hne].
  - destruct (Hup eq_refl) as (k & Hk & Hname). rewrite Hk. cbn.
    destruct (String.eqb_spec k "compute#zone") as [->|Hnk].
    + rewrite bool_decide_eq_true_2 by done. auto.
    + rewrite bool_decide_eq_false_2; [done|]. intros [_ [= ?]]. done.
  - rewrite bool_decide_eq_false_2; [done|]. intros [[= ?] _]. done.
Qed.

Lemma zone_is_up_defined (i : zone) (b : bool) :
  zone_is_up i = Ok b ->
  b = bool_decide (z_status i = Some "UP" /\ z_kind i = Some "compute#zone")
  /\ exists st, z_status i = Some st /\
        (st = "UP" -> exists k, z_kind i = Some k).
Proof.
  unfold zone_is_up. destruct (z_status i) as [st|]; [|done]. cbn.
  destruct (String.eqb_spec st "UP") as [->|Hne].
  - destruct (z_kind i) as [k|]; [|done]. cbn. intros [= <-]. split; [|eauto].
    destruct (String.eqb_spec k "compute#zone") as [->|Hnk].
    + by rewrite bool_decide_eq_true_2.
    + rewrite bool_decide_eq_false_2; [done|]. intros [_ [= ?]]. done.
  - intros [= <-]. split.
    + rewrite bool_decide_eq_false_2; [done|]. intros [[= ?] _]. done.
    + exists st. split; [done|]. done.
Qed.

Lemma omap_cons {A B : Type} (f : A -> option B) (x : A) (l : list A) :
  omap f (x :: l)
  = match f x with Some y => y :: omap f l | None => omap f l end.
Proof. reflexivity. Qed.

Lemma kept_name_kept (i : zone) :
  z_status i = Some "UP" -> z_kind i = Some "compute#zone" ->
  kept_name i = z_name i.
Proof. intros Hs Hk. unfold kept_name. by rewrite bool_decide_eq_true_2. Qed.

Lemma kept_name_dropped (i : zone) :
  ~ (z_status i = Some "UP" /\ z_kind i = Some "compute#zone") ->
  kept_name i = None.
Proof. intros Hn. unfold kept_name. by rewrite bool_decide_eq_false_2. Qed.

(** What [get_zone_names] computes from the items of the answer. *)
Lemma zone_names_exact (zones : list zone) (names : list string) :
  (filtered_list <-? filter_comp zone_is_up zones ;;
   map_comp (fun i => getitem "name" (z_name i)) filtered_list) = Ok names ->
  names = omap kept_name zones /\ Forall zone_readable zones.
Proof.
  revert names. induction zones as [|i zones IH]; intros names.
  - cbn. intros [= <-]. split; [done | constructor].
  - cbn [filter_comp]. destruct (zone_is_up i) as [b|e] eqn:Hi; [|done].
    cbn [rbind]. destruct (filter_comp zone_is_up zones) as [f|e] eqn:Hf; [|done].
    cbn [rbind]. apply zone_is_up_defined in Hi as (-> & st & Hst & Hkind).
    case_bool_decide as Hup.
    + cbn [map_comp]. destruct Hup as [Hs Hk].
      destruct (z_name i) as [n|] eqn:Hn; [|done]. cbn [getitem rbind].
      destruct (map_comp _ f) as [ns|e] eqn:Hm; [|done]. intros [= <-].
      destruct (IH ns Hm) as [-> Hall]. split.
      * by rewrite omap_cons, kept_name_kept, Hn.
      * constructor; [|done]. exists "UP". split; [done|]. intros _.
        exists "compute#zone". split; [done|]. intros _. by rewrite Hn.
    + intros Hm. destruct (IH names Hm) as [-> Hall]. split.
      * by rewrite omap_cons, kept_name_dropped.
      * constructor; [|done]. exists st. split; [done|]. intros ->.
        destruct (Hkind eq_refl) as (k & Hk). exists k. split; [done|].
        intros ->. by destruct Hup.
Qed.

Lemma zone_names_readable (zones : list zone) :
  Forall zone_readable zones ->
  (filtered_list <-? filter_comp zone_is_up zones ;;
   map_comp (fun i => getitem "name" (z_name i)) filtered_list)
  = Ok (omap kept_name zones).
Proof.
  induction 1 as [|i zones Hi _ IH]; [done|].
  destruct (zone_is_up_readable i Hi) as [Hup Hname].
  cbn [filter_comp]. rewrite Hup. cbn [rbind].
  destruct (filter_comp zone_is_up zones) as [f|e]; [|done]. cbn [rbind] in *.
  rewrite omap_cons. case_bool_decide as Hkept.
  - destruct Hname as [n Hn]; [done|]. destruct Hkept as [Hs Hk].
    rewrite kept_name_kept, Hn by done.
    cbn [map_comp]. rewrite Hn. cbn [getitem rbind]. by rewrite IH.
  - by rewrite kept_name_dropped.
Qed.

Lemma filter_comp_raise {A : Type} (p : A -> res bool) (l : list A) (e : exn) :
  filter_comp p l = Raise e -> exists x, x ∈ l /\ p x = Raise e.
Proof.
  induction l as [|x l IH]; [done|]. cbn.
  destruct (p x) as [b|e'] eqn:Hx; cbn.
  - destruct (filter_comp p l) as [f|e'']; [done|]. cbn. intros [= ->].
    destruct (IH eq_refl) as (y & ? & ?). exists y. split; [by right | done].
  - intros [= ->]. exists x. split; [by left | done].
Qed.

Lemma map_comp_raise {A B : Type} (g : A -> res B) (l : list A) (e : exn) :
  map_comp g l = Raise e -> exists x, x ∈ l /\ g x = Raise e.
Proof.
  induction l as [|x l IH]; [done|]. cbn.
  destruct (g x) as [y|e'] eqn:Hx; cbn.
  - destruct (map_comp g l) as [ys|e'']; [done|]. cbn. intros [= ->].
    destruct (IH eq_refl) as (x' & ? & ?). exists x'. split; [by right | done].
  - intros [= ->]. exists x. split; [by left | done].
Qed.

(** X1. When zones.list answers with items, [get_zone_names] returns if
    and only if every record of the answer has the keys read of it (its
    status; its kind if it is up; its name if it is kept), and it then
    returns the names of the kept zones in the order of the answer, a
    name as many times as it is listed. *)
Theorem get_zone_names_exact (api : compute_api) (project : string)
    (result : list_response zone) (zones : list zone) :
  zones_execute api project = Ok result ->
  items result = Some zones ->
  (Forall zone_readable zones ->
   get_zone_names api project
   = ([EvZonesList project], Ok (omap kept_name zones))) /\
  (forall names,
     outcome (get_zone_names api project) = Ok names ->
     Forall zone_readable zones /\ names = omap kept_name zones).
Proof.
  intros Hexec Hitems. rewrite get_zone_names_run, Hexec. cbn [rbind].
  rewrite Hitems. cbn [getitem rbind outcome snd]. split.
  - intros Hall. by rewrite zone_names_readable.
  - intros names Hnames. by destruct (zone_names_exact _ _ Hnames).
Qed.

Lemma get_zone_names_exact_witness :
  get_zone_names Demo.api "demo"
  = ([EvZonesList "demo"], Ok ["us-east1-b"; "europe-west1-d"]).
Proof.
  refine (proj1 (get_zone_names_exact Demo.api "demo"
                   (ListResponse (Some Demo.zones)) Demo.zones
                   eq_refl eq_refl) _).
  repeat constructor.
  - exists "UP". split; [done|]. intros _. exists "compute#zone". eauto.
  - exists "DOWN". split; [done|]. discriminate.
  - exists "UP". split; [done|]. intros _. exists "compute#zone". eauto.
Defined.

(** X2. [get_zone_names] sends the one request zones.list whatever
    happens.  It raises what the request raises; when the request
    answers, the only exception it can raise is a [KeyError], for
    [items], [status], [kind] or [name]. *)
Theorem get_zone_names_errors (api : compute_api) (project : string)
    (e : exn) :
  outcome (get_zone_names api project) = Raise e ->
  trace (get_zone_names api project) = [EvZonesList project] /\
  (zones_execute api project = Raise e \/
   exists result, zones_execute api project = Ok result /\
     (e = KeyError "items" /\ items result = None \/
      exists zones i, items result = Some zones /\ i ∈ zones /\
        (e = KeyError "status" /\ z_status i = None \/
         e = KeyError "kind" /\ z_status i = Some "UP" /\ z_kind i = None \/
         e = KeyError "name" /\ z_status i = Some "UP" /\
           z_kind i = Some "compute#zone" /\ z_name i = None))).
Proof.
  rewrite get_zone_names_run. cbn [trace outcome fst snd]. intros Hraise.
  split; [done|].
  destruct (zones_execute api project) as [result|e'];
    [|left; cbn in Hraise; congruence].
  right. exists result. split; [done|]. cbn [rbind] in Hraise.
  destruct (items result) as [zones|]; cbn [getitem rbind] in Hraise;
    [|left; split; congruence].
  right. exists zones.
  destruct (filter_comp zone_is_up zones) as [f|e'] eqn:Hf; cbn [rbind] in Hraise.
  - apply map_comp_raise in Hraise as (i & Hi & Hname).
    apply (filter_comp_elem _ _ _ i Hf) in Hi as [Hi Hup].
    apply zone_is_up_true in Hup as [Hs Hk]. exists i. do 2 (split; [done|]).
    right; right. destruct (z_name i); [done|].
    injection Hname as <-. auto.
  - injection Hraise as ->. apply filter_comp_raise in Hf as (i & Hi & Hup).
    exists i. do 2 (split; [done|]). unfold zone_is_up in Hup.
    destruct (z_status i) as [st|]; cbn in Hup; [|left; split; congruence].
    destruct (String.eqb_spec st "UP") as [Hst|]; [subst st|done].
    destruct (z_kind i) as [k|]; cbn in Hup; [done|].
    right; left. split; [congruence | done].
Qed.

Lemma get_zone_names_errors_witness :
  trace (get_zone_names Demo.bare "demo") = [EvZonesList "demo"] /\
  (zones_execute Demo.bare "demo" = Raise (KeyError "items") \/
   exists result, zones_execute Demo.bare "demo" = Ok result /\
     (KeyError "items" = KeyError "items" /\ items result = None \/
      exists zones i, items result = Some zones /\ i ∈ zones /\
        (KeyError "items" = KeyError "status" /\ z_status i = None \/
         KeyError "items" = KeyError "kind" /\ z_status i = Some "UP" /\
           z_kind i = None \/
         KeyError "items" = KeyError "name" /\ z_status i = Some "UP" /\
           z_kind i = Some "compute#zone" /\ z_name i = None))).
Proof.
  apply (get_zone_names_errors Demo.bare "demo" (KeyError "items")).
  reflexivity.
Defined.

(** ** Discovery, turn by turn *)

Section DiscoveryRuns.

Variable E : re_engine.

Lemma instance_selected_defined (rx : regex E) (x : instance) (b : bool) :
  instance_selected E rx x = Ok b ->
  b = instance_matches E rx x /\ instance_readable x.
Proof.
  unfold instance_selected, instance_matches, instance_readable.
  destruct (i_status x) as [st|]; [|done]. cbn.
  destruct (String.eqb_spec st "RUNNING") as [Hst|Hst].
  - subst st. destruct (i_kind x) as [k|]; [|done]. cbn.
    destruct (String.eqb_spec k "compute#instance") as [Hk|Hk].
    + subst k. destruct (i_name x) as [n|]; [|done]. cbn. intros [= <-].
      rewrite !bool_decide_eq_true_2 by done. split; [done|].
      exists "RUNNING". split; [done|]. intros _.
      exists "compute#instance". eauto.
    + intros [= <-]. split.
      * rewrite bool_decide_eq_true_2 by done.
        rewrite (bool_decide_eq_false_2 (Some k = _)); [done|]. congruence.
      * exists "RUNNING". split; [done|]. intros _. exists k. by split.
  - intros [= <-]. split.
    + rewrite bool_decide_eq_false_2; [done|]. congruence.
    + exists st. by split.
Qed.

Lemma instance_selected_readable (rx : regex E) (x : instance) :
  instance_readable x ->
  instance_selected E rx x = Ok (instance_matches E rx x).
Proof.
  intros (st & Hst & Hrun).
  destruct (instance_selected E rx x) as [b|e] eqn:Hsel.
  - by apply instance_selected_defined in Hsel as [-> _].
  - exfalso. unfold instance_selected in Hsel. rewrite Hst in Hsel.
    cbn in Hsel. destruct (String.eqb_spec st "RUNNING") as [Hr|]; [|done].
    destruct (Hrun Hr) as (k & Hk & Hname). rewrite Hk in Hsel. cbn in Hsel.
    destruct (String.eqb_spec k "compute#instance") as [Hc|]; [|done].
    destruct (Hname Hc) as [n Hn]. by rewrite Hn in Hsel.
Qed.

Lemma filter_comp_exact {A : Type} (p : A -> res bool) (q : A -> bool)
    (l f : list A) :
  (forall x b, p x = Ok b -> b = q x) ->
  filter_comp p l = Ok f -> f = List.filter q l.
Proof.
  intros Hq. revert f. induction l as [|x l IH]; intros f.
  - by intros [= <-].
  - intros (b & f' & Hx & Hf & ->)%filter_comp_cons.
    cbn. rewrite <- (Hq x b Hx), <- (IH f' Hf). done.
Qed.

Lemma filter_comp_all_defined {A : Type} (p : A -> res bool) (l : list A) :
  Forall (fun x => exists b, p x = Ok b) l <-> exists f, filter_comp p l = Ok f.
Proof.
  split.
  - induction 1 as [|x l [b Hx] _ [f Hf]]; [by exists []|].
    cbn. rewrite Hx, Hf. cbn. eauto.
  - intros [f Hf]. apply Forall_forall. intros x Hx.
    by apply (filter_comp_defined _ _ _ _ Hf).
Qed.

(** One turn of the loop goes through if and only if instances.list
    answers and every record of the answer is readable; it then stores
    the records that match, in order. *)
Lemma selected_in_ok (api : compute_api) (project : string) (rx : regex E)
    (zone_name : string) (f : list instance) :
  selected_in E api project rx zone_name = Ok f <->
  exists result,
    instances_execute api project zone_name = Ok result /\
    Forall instance_readable (default [] (items result)) /\
    f = List.filter (instance_matches E rx) (default [] (items result)).
Proof.
  unfold selected_in. split.
  - destruct (instances_execute api project zone_name) as [result|e]; [|done].
    cbn. intros Hf. exists result. split; [done|]. split.
    + apply Forall_forall. intros x Hx.
      destruct (filter_comp_defined _ _ _ _ Hf Hx) as [b Hb].
      by apply instance_selected_defined in Hb as [_ ?].
    + apply (filter_comp_exact _ _ _ _ (fun x b Hb =>
               proj1 (instance_selected_defined rx x b Hb)) Hf).
  - intros (result & -> & Hall & ->). cbn.
    assert (exists f, filter_comp (instance_selected E rx)
                        (default [] (items result)) = Ok f) as [f Hf].
    { apply filter_comp_all_defined. eapply Forall_impl; [exact Hall|].
      intros x Hx. eexists. by apply instance_selected_readable. }
    rewrite Hf. f_equal.
    apply (filter_comp_exact _ _ _ _ (fun x b Hb =>
             proj1 (instance_selected_defined rx x b Hb)) Hf).
Qed.

Lemma obtain_instances_loop_trace_ok (api : compute_api) (project : string)
    (rx : regex E) (zone_names : list string)
    (zone_instances zone_instances' : pydict (list instance)) :
  outcome (obtain_instances_loop E api project rx zone_names zone_instances)
    = Ok zone_instances' ->
  trace (obtain_instances_loop E api project rx zone_names zone_instances)
    = map (EvInstancesList project) zone_names.
Proof.
  revert zone_instances. induction zone_names as [|z zs IH]; [done|].
  intros zone_instances. rewrite obtain_instances_loop_cons.
  destruct (selected_in E api project rx z) as [f|e]; [|done].
  cbn. intros Hrun. by rewrite (IH _ Hrun).
Qed.

Lemma obtain_instances_loop_stops (api : compute_api) (project : string)
    (rx : regex E) (before : list string) (zone_name : string)
    (after : list string) (e : exn)
    (zone_instances : pydict (list instance)) :
  Forall (fun z => exists f, selected_in E api project rx z = Ok f) before ->
  selected_in E api project rx zone_name = Raise e ->
  obtain_instances_loop E api project rx (before ++ zone_name :: after)
    zone_instances
  = (map (EvInstancesList project) (before ++ [zone_name]), Raise e).
Proof.
  intros Hbefore Hfail. revert zone_instances.
  induction Hbefore as [|z zs [f Hz] _ IH]; intros zone_instances.
  - cbn [app]. by rewrite obtain_instances_loop_cons, Hfail.
  - cbn [app]. rewrite obtain_instances_loop_cons, Hz. cbn zeta.
    by rewrite IH.
Qed.

Lemma obtain_instances_loop_succeeds (api : compute_api) (project : string)
    (rx : regex E) (zone_names : list string)
    (zone_instances : pydict (list instance)) :
  Forall (fun z => exists f, selected_in E api project rx z = Ok f) zone_names ->
  exists zone_instances',
    outcome (obtain_instances_loop E api project rx zone_names zone_instances)
    = Ok zone_instances'.
Proof.
  intros Hall. revert zone_instances.
  induction Hall as [|z zs [f Hz] _ IH]; intros zone_instances.
  - by exists zone_instances.
  - rewrite obtain_instances_loop_cons, Hz. cbn. apply IH.
Qed.

Lemma api_calls_instances (project : string) (zone_names : list string) :
  api_calls (map (EvInstancesList project) zone_names) = length zone_names.
Proof.
  unfold api_calls. induction zone_names as [|z zs IH]; [done|].
  cbn. by rewrite IH.
Qed.

(** X3. When discovery returns, it has sent zones.list once and then
    instances.list once for each name that [get_zone_names] returned, in
    that order, a name listed twice being asked twice: one request more
    than there are kept zones. *)
Theorem obtain_instances_calls (api : compute_api)
    (project match_pattern : string) (t : list event)
    (zone_instances : pydict (list instance)) :
  obtain_instances E api project match_pattern = (t, Ok zone_instances) ->
  exists zone_names,
    outcome (get_zone_names api project) = Ok zone_names /\
    t = EvZonesList project :: map (EvInstancesList project) zone_names /\
    api_calls t = S (length zone_names).
Proof.
  rewrite obtain_instances_run.
  destruct (outcome (get_zone_names api project)) as [zone_names|e]; [|done].
  destruct (re_compile E match_pattern) as [rx|]; [|done].
  cbn zeta. intros [= <- Hloop]. exists zone_names. split; [done|].
  rewrite (obtain_instances_loop_trace_ok _ _ _ _ _ _ Hloop).
  split; [done|]. unfold api_calls. cbn [List.filter is_api_call length].
  f_equal. apply api_calls_instances.
Qed.

(** X4. When discovery returns, what it stores for a zone is the answer
    of instances.list for that zone, every record of which is readable,
    filtered by the three conditions: the records kept are in the order
    of the answer and a record listed twice is kept twice. *)
Theorem obtain_instances_filter (api : compute_api)
    (project match_pattern : string) (t : list event)
    (zone_instances : pydict (list instance))
    (zone_name : string) (selected : list instance) :
  obtain_instances E api project match_pattern = (t, Ok zone_instances) ->
  zone_instances !! zone_name = Some selected ->
  exists rx result,
    re_compile E match_pattern = Some rx /\
    instances_execute api project zone_name = Ok result /\
    Forall instance_readable (default [] (items result)) /\
    selected = List.filter (instance_matches E rx) (default [] (items result)).
Proof.
  intros Hrun Hsel.
  destruct (obtain_instances_lookup _ _ _ _ _ _ _ _ Hrun Hsel)
    as (rx & result & Hrx & Hexec & Hf).
  exists rx, result. do 2 (split; [done|]).
  assert (selected_in E api project rx zone_name = Ok selected) as Hturn.
  { unfold selected_in. by rewrite Hexec. }
  apply selected_in_ok in Hturn as (result' & Hexec' & Hall & ->).
  rewrite Hexec in Hexec'. by injection Hexec' as <-.
Qed.

(** X5. When instances.list raises for a kept zone, and the zones before
    it went through, discovery raises that exception there and then: it
    has asked for the zones up to that one and for none after it, and
    what it had gathered is lost. *)
Theorem obtain_instances_stops (api : compute_api)
    (project match_pattern : string) (rx : regex E)
    (before : list string) (zone_name : string) (after : list string)
    (e : exn) :
  outcome (get_zone_names api project) = Ok (before ++ zone_name :: after) ->
  re_compile E match_pattern = Some rx ->
  Forall (fun z => exists result,
            instances_execute api project z = Ok result /\
            Forall instance_readable (default [] (items result))) before ->
  instances_execute api project zone_name = Raise e ->
  obtain_instances E api project match_pattern
  = (EvZonesList project
     :: map (EvInstancesList project) (before ++ [zone_name]), Raise e).
Proof.
  intros Hnames Hrx Hbefore Hfail.
  rewrite obtain_instances_run, Hnames, Hrx. cbn zeta.
  rewrite (obtain_instances_loop_stops api project rx before zone_name after e).
  - done.
  - eapply Forall_impl; [exact Hbefore|]. intros z (result & Hexec & Hall).
    eexists. apply selected_in_ok. eauto.
  - unfold selected_in. by rewrite Hfail.
Qed.

(** X6. Discovery returns a mapping if and only if [get_zone_names]
    returns, the pattern compiles, and for every name returned
    instances.list answers with records that are all readable (a status;
    a kind if running; a name if running and of the kind of an
    instance). *)
Theorem obtain_instances_succeeds_iff (api : compute_api)
    (project match_pattern : string) :
  (exists t zone_instances,
     obtain_instances E api project match_pattern = (t, Ok zone_instances))
  <->
  (exists zone_names rx,
     outcome (get_zone_names api project) = Ok zone_names /\
     re_compile E match_pattern = Some rx /\
     Forall (fun z => exists result,
               instances_execute api project z = Ok result /\
               Forall instance_readable (default [] (items result)))
            zone_names).
Proof.
  rewrite obtain_instances_run. split.
  - intros (t & zone_instances & Hrun).
    destruct (outcome (get_zone_names api project)) as [zone_names|e]; [|done].
    destruct (re_compile E match_pattern) as [rx|]; [|done].
    cbn zeta in Hrun. injection Hrun as _ Hloop.
    exists zone_names, rx. do 2 (split; [done|]).
    apply Forall_forall. intros z Hz.
    destruct (proj1 (obtain_instances_loop_ok _ _ _ _ _ _ _ Hloop z) Hz)
      as (f & Hf & _).
    apply selected_in_ok in Hf as (result & ? & ? & _). eauto.
  - intros (zone_names & rx & -> & -> & Hall). cbn zeta.
    destruct (obtain_instances_loop_succeeds api project rx zone_names ∅)
      as [zone_instances Hloop].
    { eapply Forall_impl; [exact Hall|]. intros z (result & Hexec & Hread).
      eexists. apply selected_in_ok. eauto. }
    rewrite Hloop. eauto.
Qed.

(** X7. Whatever its outcome, discovery only sends requests to the
    Compute API: it starts no process and prints nothing. *)
Theorem obtain_instances_only_calls (api : compute_api)
    (project match_pattern : string) :
  Forall (fun ev => is_api_call ev = true)
         (trace (obtain_instances E api project match_pattern)) /\
  commands (trace (obtain_instances E api project match_pattern)) = [] /\
  printed (trace (obtain_instances E api project match_pattern)) = [] /\
  written (trace (obtain_instances E api project match_pattern)) = EmptyString.
Proof.
  assert (Forall (fun ev => is_api_call ev = true)
            (trace (obtain_instances E api project match_pattern))) as Hall.
  { rewrite obtain_instances_run.
    destruct (outcome (get_zone_names api project)) as [zone_names|e];
      [|by repeat constructor].
    destruct (re_compile E match_pattern) as [rx|]; [|by repeat constructor].
    cbn. constructor; [done|]. apply Forall_forall. intros ev Hev.
    by apply obtain_instances_loop_trace in Hev as (z & _ & ->). }
  split; [done|].
  induction Hall as [|ev t Hev _ (IH1 & IH2 & IH3)]; [done|].
  destruct ev; done.
Qed.

End DiscoveryRuns.

Lemma obtain_instances_calls_witness :
  exists zone_names,
    outcome (get_zone_names Demo.api "demo") = Ok zone_names /\
    trace (obtain_instances Re.engine Demo.api "demo" "web-")
    = EvZonesList "demo" :: map (EvInstancesList "demo") zone_names /\
    api_calls (trace (obtain_instances Re.engine Demo.api "demo" "web-"))
    = S (length zone_names).
Proof.
  apply (obtain_instances_calls Re.engine Demo.api "demo" "web-"
           (trace (obtain_instances Re.engine Demo.api "demo" "web-"))
           Demo.found).
  run_script.
Defined.

Lemma obtain_instances_filter_witness :
  exists rx result,
    re_compile Re.engine "web-" = Some rx /\
    instances_execute Demo.api "demo" "us-east1-b" = Ok result /\
    Forall instance_readable (default [] (items result)) /\
    [Demo.web_01]
    = List.filter (instance_matches Re.engine rx) (default [] (items result)).
Proof.
  apply (obtain_instances_filter Re.engine Demo.api "demo" "web-"
           (trace (obtain_instances Re.engine Demo.api "demo" "web-"))
           Demo.found "us-east1-b" [Demo.web_01]); run_script.
Defined.

Lemma obtain_instances_stops_witness :
  obtain_instances Re.engine Lab.flaky "demo" "web-"
  = (EvZonesList "demo"
     :: map (EvInstancesList "demo") (["us-east1-b"] ++ ["us-east1-c"]),
     Raise (ClientError "503")).
Proof.
  apply (obtain_instances_stops Re.engine Lab.flaky "demo" "web-"
           (Re.literal "web-") ["us-east1-b"] "us-east1-c"
           ["europe-west1-d"] (ClientError "503")).
  - reflexivity.
  - reflexivity.
  - constructor; [|constructor].
    exists (ListResponse (Some [Demo.web_01])). split; [reflexivity|].
    constructor; [|constructor]. exists "RUNNING". split; [reflexivity|].
    intros _. exists "compute#instance". split; [reflexivity|].
    intros _. by exists "web-01".
  - reflexivity.
Defined.

(** ** Relaying the output of a process *)

Lemma readlines_nil (s : string) : readlines s = [] -> s = EmptyString.
Proof.
  destruct s as [|c s]; [done|]. cbn.
  destruct (Ascii.eqb c newline); [done|]. by destruct (readlines s).
Qed.

Lemma written_writes (s : string) : written (map EvWrite (readlines s)) = s.
Proof.
  induction s as [|c s IH]; [done|]. cbn [readlines].
  destruct (Ascii.eqb c newline).
  - cbn. by rewrite IH.
  - destruct (readlines s) as [|l ls] eqn:Hl.
    + apply readlines_nil in Hl as ->. done.
    + cbn [map written] in *.
      change (String c (l +:+ written (map EvWrite ls)) = String c s).
      by rewrite IH.
Qed.

Lemma written_app (t1 t2 : list event) :
  written (t1 ++ t2) = written t1 +:+ written t2.
Proof.
  induction t1 as [|ev t1 IH]; [done|].
  destruct ev; cbn; rewrite ?IH; try done. by rewrite append_assoc.
Qed.

Lemma append_empty_r (s : string) : s +:+ EmptyString = s.
Proof.
  induction s as [|c s IH]; [done|].
  change (String c (s +:+ EmptyString) = String c s). by rewrite IH.
Qed.

Lemma printed_writes (lines : list string) : printed (map EvWrite lines) = [].
Proof. by induction lines. Qed.

Lemma printed_app (t1 t2 : list event) :
  printed (t1 ++ t2) = printed t1 ++ printed t2.
Proof.
  induction t1 as [|ev t1 IH]; [done|]. destruct ev; cbn; by rewrite ?IH.
Qed.

(** X8. Of a process that it could start, [print_subprocess] writes the
    standard output whole and in order, nothing lost and nothing added,
    whatever the exit status; when the status is 0 it prints one empty
    line after it and nothing of the standard error. *)
Theorem print_subprocess_relays (h : host) (proc_name : string)
    (proc_args : list string) (proc : process) :
  popen h proc_args StderrPipe = Ok proc ->
  written (trace (print_subprocess h proc_name proc_args)) = stdout proc /\
  outcome (print_subprocess h proc_name proc_args) = Ok tt /\
  (returncode proc = 0%Z ->
   printed (trace (print_subprocess h proc_name proc_args)) = [EmptyString]).
Proof.
  intros Hproc. rewrite print_subprocess_run, Hproc.
  cbn [trace outcome fst snd written]. split; [|split; [done|]].
  - by rewrite written_app, written_writes, append_empty_r.
  - intros ->. cbn [printed]. by rewrite printed_app, printed_writes.
Qed.

Lemma print_subprocess_relays_witness :
  written (trace (print_subprocess (Demo.machine Demo.api) "Traceroute"
                    ["traceroute"; "203.0.113.10"]))
  = "traceroute to host" +:+ String newline EmptyString /\
  outcome (print_subprocess (Demo.machine Demo.api) "Traceroute"
             ["traceroute"; "203.0.113.10"]) = Ok tt /\
  (2%Z = 0%Z ->
   printed (trace (print_subprocess (Demo.machine Demo.api) "Traceroute"
                     ["traceroute"; "203.0.113.10"])) = [EmptyString]).
Proof.
  apply (print_subprocess_relays (Demo.machine Demo.api) "Traceroute"
           ["traceroute"; "203.0.113.10"]
           (Process ("traceroute to host" +:+ String newline EmptyString)
                    "unreachable" 2)).
  reflexivity.
Defined.

(** X9. [print_subprocess] never raises an [OSError]: when the command
    cannot be started, it prints a report with the message of the error
    and the command line, and returns normally.  An exception of another
    class that starting the command raises leaves it as it is. *)
Theorem print_subprocess_catches (h : host) (proc_name : string)
    (proc_args : list string) :
  (forall msg,
     outcome (print_subprocess h proc_name proc_args) <> Raise (OSError msg)) /\
  (forall msg,
     popen h proc_args StderrPipe = Raise (OSError msg) ->
     print_subprocess h proc_name proc_args
     = ([EvExec proc_args StderrPipe;
         EvPrint (error_report proc_name msg (join " " proc_args))], Ok tt) /\
     occurs_in msg (error_report proc_name msg (join " " proc_args))) /\
  (forall e,
     popen h proc_args StderrPipe = Raise e ->
     (forall msg, e <> OSError msg) ->
     print_subprocess h proc_name proc_args
     = ([EvExec proc_args StderrPipe], Raise e)).
Proof.
  rewrite print_subprocess_run. split; [|split].
  - intros msg. destruct (popen h proc_args StderrPipe) as [proc|e]; [done|].
    by destruct e.
  - intros msg ->. split; [done|]. unfold error_report.
    do 3 apply occurs_in_append_r. apply occurs_in_here.
  - intros e -> Hne. destruct e; try done. by destruct (Hne msg).
Qed.

(** ** The answers of [dig] and [gcloud] *)

Lemma rstrip_cons (c : ascii) (s : string) :
  is_space c = false -> rstrip (String c s) = String c (rstrip s).
Proof. intros Hc. cbn. rewrite Hc. by destruct (rstrip s). Qed.

Lemma rstrip_rstrip (s : string) : rstrip (rstrip s) = rstrip s.
Proof.
  induction s as [|c s IH]; [done|]. cbn [rstrip].
  destruct (rstrip s) as [|d r] eqn:Hr.
  - destruct (is_space c) eqn:Hc; [done|]. cbn. by rewrite Hc.
  - cbn [rstrip] in *. by rewrite IH.
Qed.

Lemma lstrip_head (s : string) :
  lstrip s = EmptyString \/
  exists c t, lstrip s = String c t /\ is_space c = false.
Proof.
  induction s as [|c s IH]; [by left|]. cbn.
  destruct (is_space c) eqn:Hc; [done|]. right. by exists c, s.
Qed.

Lemma strip_stripped (s : string) :
  lstrip (strip s) = strip s /\ rstrip (strip s) = strip s.
Proof.
  unfold strip. split; [|apply rstrip_rstrip].
  destruct (lstrip_head s) as [->|(c & t & -> & Hc)]; [done|].
  rewrite (rstrip_cons _ _ Hc). cbn. by rewrite Hc.
Qed.

Lemma check_output_run (h : host) (args : list string) (err : stderr_mode) :
  check_output h args err =
  ([EvExec args err],
   match popen h args err with
   | Ok proc =>
       if Z.eqb (returncode proc) 0 then Ok (stdout proc)
       else Raise (CalledProcessError (returncode proc))
   | Raise e => Raise e
   end).
Proof.
  unfold check_output, Popen, bind, emit, lift, ret, raise.
  destruct (popen h args err) as [proc|e]; [|done].
  by destruct (Z.eqb (returncode proc) 0).
Qed.

Lemma obtain_default_project_run (h : host) :
  obtain_default_project h =
  ([EvExec gcloud_project StderrPipe],
   match popen h gcloud_project StderrPipe with
   | Ok proc =>
       if Z.eqb (returncode proc) 0 then Ok (strip (stdout proc))
       else Raise (CalledProcessError (returncode proc))
   | Raise e => Raise e
   end).
Proof.
  unfold obtain_default_project. fold gcloud_project.
  rewrite check_output_run.
  destruct (popen h gcloud_project StderrPipe) as [proc|e]; [|done].
  by destruct (Z.eqb (returncode proc) 0).
Qed.

Lemma stripped_answer (r : res process) (text : string) :
  match r with
  | Ok proc =>
      if Z.eqb (returncode proc) 0 then Ok (strip (stdout proc))
      else Raise (CalledProcessError (returncode proc))
  | Raise e => Raise e
  end = Ok text ->
  lstrip text = text /\ rstrip text = text /\
  exists proc, r = Ok proc /\ returncode proc = 0%Z /\
               text = strip (stdout proc).
Proof.
  destruct r as [proc|e]; [|done].
  destruct (Z.eqb_spec (returncode proc) 0) as [Hrc|]; [|done].
  intros [= <-]. destruct (strip_stripped (stdout proc)) as [Hl Hr].
  do 2 (split; [done|]). by exists proc.
Qed.

(** X10. What [obtain_self_ip] and [obtain_default_project] return is
    the standard output of a command that ended with status 0, with no
    white space left at either end; a command that ends with another
    status makes them raise [CalledProcessError] with that status,
    whatever it wrote. *)
Theorem answers_are_stripped (h : host) :
  (forall ip,
     outcome (obtain_self_ip h) = Ok ip ->
     lstrip ip = ip /\ rstrip ip = ip /\
     exists proc, popen h dig_self_ip StderrInherit = Ok proc /\
                  returncode proc = 0%Z /\ ip = strip (stdout proc)) /\
  (forall project,
     outcome (obtain_default_project h) = Ok project ->
     lstrip project = project /\ rstrip project = project /\
     exists proc, popen h gcloud_project StderrPipe = Ok proc /\
                  returncode proc = 0%Z /\ project = strip (stdout proc)) /\
  (forall proc,
     popen h dig_self_ip StderrInherit = Ok proc ->
     returncode proc <> 0%Z ->
     obtain_self_ip h
     = ([EvExec dig_self_ip StderrInherit],
        Raise (CalledProcessError (returncode proc)))) /\
  (forall proc,
     popen h gcloud_project StderrPipe = Ok proc ->
     returncode proc <> 0%Z ->
     obtain_default_project h
     = ([EvExec gcloud_project StderrPipe],
        Raise (CalledProcessError (returncode proc)))).
Proof.
  rewrite obtain_self_ip_run, obtain_default_project_run.
  cbn [outcome snd]. split; [|split; [|split]].
  - intros ip. apply stripped_answer.
  - intros project. apply stripped_answer.
  - intros proc -> Hrc%Z.eqb_neq. by rewrite Hrc.
  - intros proc -> Hrc%Z.eqb_neq. by rewrite Hrc.
Qed.

(** ** The diagnostics of an instance *)

Lemma print_subprocess_tolerant (h : host) (proc_name : string)
    (proc_args : list string) :
  tolerant h -> outcome (print_subprocess h proc_name proc_args) = Ok tt.
Proof.
  intros Htol. rewrite print_subprocess_run.
  destruct (popen h proc_args StderrPipe) as [proc|e] eqn:Hp; [done|].
  by destruct (Htol _ _ Hp) as [msg ->].
Qed.

Lemma traceroute_instance_diagnostics (h : host) (inst : instance)
    (tr_project_name tr_zone_name self_ip : string)
    (reverse_traceroute : bool) :
  tolerant h ->
  outcome (obtain_self_ip h) = Ok self_ip ->
  is_Some (address_line inst) ->
  outcome (traceroute_instance h inst tr_project_name tr_zone_name
             reverse_traceroute) = Ok tt /\
  commands (trace (traceroute_instance h inst tr_project_name tr_zone_name
                     reverse_traceroute))
  = diagnostics tr_project_name tr_zone_name self_ip reverse_traceroute inst.
Proof.
  intros Htol Hself [line Hline]. unfold address_line, diagnostics in *.
  destruct (i_name inst) as [name|] eqn:Hname; [|done].
  destruct (external_ip_of inst) as [ip|] eqn:Hip; [|done].
  rewrite (traceroute_instance_run _ _ _ _ _ _ _ Hname Hip), Hself. cbn zeta.
  rewrite (print_subprocess_tolerant _ _ _ Htol). destruct reverse_traceroute.
  - cbn [trace outcome fst snd].
    split; [by apply print_subprocess_tolerant|].
    rewrite commands_app. cbn [commands].
    by rewrite !print_subprocess_commands.
  - cbn [trace outcome fst snd commands].
    by rewrite print_subprocess_commands.
Qed.

(** X11. When the lookup of the address of the host fails ([dig] is
    missing or ends with a status other than 0), [traceroute_instance]
    raises that failure at once for an instance that has a name and an
    address: [dig] is the only process started, nothing is printed, and
    the forward traceroute is not run. *)
Theorem traceroute_instance_needs_dig (h : host) (inst : instance)
    (tr_project_name tr_zone_name : string) (reverse_traceroute : bool)
    (e : exn) :
  is_Some (address_line inst) ->
  outcome (obtain_self_ip h) = Raise e ->
  traceroute_instance h inst tr_project_name tr_zone_name reverse_traceroute
  = ([EvExec dig_self_ip StderrInherit], Raise e).
Proof.
  intros [line Hline] Hself. unfold address_line in Hline.
  destruct (i_name inst) as [name|] eqn:Hname; [|done].
  destruct (external_ip_of inst) as [ip|] eqn:Hip; [|done].
  by rewrite (traceroute_instance_run _ _ _ _ _ _ _ Hname Hip), Hself.
Qed.

Lemma traceroute_instance_needs_dig_witness :
  traceroute_instance Lab.no_dig Demo.web_01 "demo" "us-east1-b" true
  = ([EvExec dig_self_ip StderrInherit], Raise Lab.not_found).
Proof.
  apply (traceroute_instance_needs_dig Lab.no_dig Demo.web_01 "demo"
           "us-east1-b" true Lab.not_found).
  - by eexists.
  - reflexivity.
Defined.

(** X12. On a host where starting a process can only fail with an
    [OSError], and where the lookup of the address of the host succeeds,
    [traceroute_instance] returns normally for an instance that has a
    name and an address, whatever the exit statuses: a traceroute that
    fails or cannot be started does not keep the reverse traceroute from
    being run after it. *)
Theorem traceroute_instance_goes_on (h : host) (inst : instance)
    (tr_project_name tr_zone_name self_ip name external_ip : string) :
  tolerant h ->
  outcome (obtain_self_ip h) = Ok self_ip ->
  i_name inst = Some name ->
  external_ip_of inst = Ok external_ip ->
  (forall reverse_traceroute,
     outcome (traceroute_instance h inst tr_project_name tr_zone_name
                reverse_traceroute) = Ok tt) /\
  commands (trace (traceroute_instance h inst tr_project_name tr_zone_name
                     true))
  = [dig_self_ip; ["traceroute"; external_ip];
     ssh_traceroute name tr_project_name tr_zone_name self_ip] /\
  commands (trace (traceroute_instance h inst tr_project_name tr_zone_name
                     false))
  = [dig_self_ip; ["traceroute"; external_ip]].
Proof.
  intros Htol Hself Hname Hip.
  assert (is_Some (address_line inst)) as Hline.
  { unfold address_line. rewrite Hname, Hip. by eexists. }
  split; [|split].
  - intros r.
    by destruct (traceroute_instance_diagnostics h inst tr_project_name
                   tr_zone_name self_ip r Htol Hself Hline).
  - destruct (traceroute_instance_diagnostics h inst tr_project_name
                tr_zone_name self_ip true Htol Hself Hline) as [_ ->].
    unfold diagnostics. by rewrite Hname, Hip.
  - destruct (traceroute_instance_diagnostics h inst tr_project_name
                tr_zone_name self_ip false Htol Hself Hline) as [_ ->].
    unfold diagnostics. by rewrite Hname, Hip.
Qed.

Lemma no_traceroute_tolerant : tolerant Lab.no_traceroute.
Proof.
  intros args e. unfold Lab.no_traceroute. cbn [popen].
  destruct args as [|command args]; [done|].
  destruct (String.eqb command "dig"); [done|].
  destruct (String.eqb command "traceroute"); [intros [= <-]; by eexists|].
  by case_bool_decide.
Qed.

Lemma traceroute_instance_goes_on_witness :
  (forall reverse_traceroute,
     outcome (traceroute_instance Lab.no_traceroute Demo.web_01 "demo"
                "us-east1-b" reverse_traceroute) = Ok tt) /\
  commands (trace (traceroute_instance Lab.no_traceroute Demo.web_01 "demo"
                     "us-east1-b" true))
  = [dig_self_ip; ["traceroute"; "203.0.113.10"];
     ssh_traceroute "web-01" "demo" "us-east1-b" "198.51.100.7"] /\
  commands (trace (traceroute_instance Lab.no_traceroute Demo.web_01 "demo"
                     "us-east1-b" false))
  = [dig_self_ip; ["traceroute"; "203.0.113.10"]].
Proof.
  apply (traceroute_instance_goes_on Lab.no_traceroute Demo.web_01 "demo"
           "us-east1-b" "198.51.100.7" "web-01" "203.0.113.10").
  - exact no_traceroute_tolerant.
  - reflexivity.
  - reflexivity.
  - reflexivity.
Defined.

Example traceroute_missing_is_reported :
  traceroute_instance Lab.no_traceroute Demo.web_01 "demo" "us-east1-b" false
  = ([EvExec dig_self_ip StderrInherit;
      EvPrint "Traceroute TO web-01: 198.51.100.7 -> 203.0.113.10";
      EvExec ["traceroute"; "203.0.113.10"] StderrPipe;
      EvPrint ("Error running Traceroute: "
               +:+ "[Errno 2] No such file or directory"
               +:+ String newline "CALL: traceroute 203.0.113.10"
               +:+ String newline EmptyString)], Ok tt).
Proof. run_script. Qed.

(** ** The phases of [main] *)

Lemma bind_ret {A B : Type} (a : A) (k : A -> M B) : bind (ret a) k = k a.
Proof. unfold ret. rewrite bind_ok. cbn. by destruct (k a). Qed.

Lemma bind_ext {A B : Type} (m : M A) (k1 k2 : A -> M B) :
  (forall a, k1 a = k2 a) -> bind m k1 = bind m k2.
Proof. intros Hk. destruct m as [t [a|e]]; cbn; [by rewrite Hk | done]. Qed.

Lemma for_each_ext {A : Type} (f g : A -> M unit) (l : list A) :
  (forall x, f x = g x) -> for_each f l = for_each g l.
Proof.
  intros Hfg. induction l as [|x l IH]; [done|]. cbn. by rewrite Hfg, IH.
Qed.

Section MainPhases.

Variable E : re_engine.

(** What [main] does once the project is known. *)
Lemma main_tail (h : host) (args : arguments) (current_project : string) :
  (emit (EvPrint ("Project is: " +:+ current_project)) ;;
   emit (EvPrint "#################################") ;;
   emit (EvPrint "Obtaining instances...") ;;
   compute_api <- get_gcloud_api h ;;
   zone_instances <-
     obtain_instances E compute_api current_project (a_match_pattern args) ;;
   for_each (report_zone h args current_project) (dict_items zone_instances))
  = match client h with
    | Raise e => (banner current_project ++ [EvBuildApi], Raise e)
    | Ok api =>
        let found :=
          obtain_instances E api current_project (a_match_pattern args) in
        match outcome found with
        | Raise e =>
            (banner current_project ++ EvBuildApi :: trace found, Raise e)
        | Ok zone_instances =>
            let report :=
              for_each (report_zone h args current_project)
                       (dict_items zone_instances) in
            (banner current_project ++ EvBuildApi :: trace found
             ++ trace report, outcome report)
        end
    end.
Proof.
  rewrite !bind_emit. unfold get_gcloud_api. rewrite bind_emit.
  destruct (client h) as [api|e]; [|done].
  cbn [lift trace outcome fst snd app banner].
  change ([EvBuildApi]) with ([EvBuildApi] ++ []).
  rewrite bind_ok. cbn [app trace outcome fst snd].
  destruct (obtain_instances E api current_project (a_match_pattern args))
    as [t [zone_instances|e]]; [|done].
  rewrite bind_ok. done.
Qed.

Lemma main_run (h : host) (args : arguments) (current_project : string) :
  a_dig args = false ->
  a_project args = Some current_project ->
  main E h args
  = match client h with
    | Raise e => (banner current_project ++ [EvBuildApi], Raise e)
    | Ok api =>
        let found :=
          obtain_instances E api current_project (a_match_pattern args) in
        match outcome found with
        | Raise e =>
            (banner current_project ++ EvBuildApi :: trace found, Raise e)
        | Ok zone_instances =>
            let report :=
              for_each (report_zone h args current_project)
                       (dict_items zone_instances) in
            (banner current_project ++ EvBuildApi :: trace found
             ++ trace report, outcome report)
        end
    end.
Proof.
  intros Hdig Hproject. unfold main. rewrite Hdig, Hproject, !bind_ret.
  apply main_tail.
Qed.

Lemma report_zone_resolved (h : host) (args : arguments)
    (current_project : string) (item : string * list instance) :
  report_zone h (resolved current_project args) current_project item
  = report_zone h args current_project item.
Proof. reflexivity. Qed.

Lemma main_phases (h : host) (args : arguments) :
  main E h args
  = ((if a_dig args then print_dig h else ret tt) ;;
     current_project <-
       match a_project args with
       | None => obtain_default_project h
       | Some p => ret p
       end ;;
     main E h (resolved current_project args)).
Proof.
  unfold main at 1. apply bind_ext. intros _. apply bind_ext.
  intros current_project.
  rewrite (main_run h (resolved current_project args) current_project)
    by reflexivity.
  rewrite main_tail. reflexivity.
Qed.

Lemma outcome_bind {A B : Type} (m : M A) (k : A -> M B) :
  outcome (bind m k) =
  match outcome m with Ok a => outcome (k a) | Raise e => Raise e end.
Proof. destruct m as [t [a|e]]; cbn; [|done]. by destruct (k a). Qed.

Lemma print_dig_run (h : host) :
  print_dig h =
  match popen h dig_txt StderrToStdout with
  | Ok dig =>
      (EvPrint ("Running " +:+ dquote +:+
                "dig -t txt o-o.myaddr.l.google.com @ns1.google.com"
                +:+ dquote)
       :: EvExec dig_txt StderrToStdout
       :: map EvWrite (readlines (stdout dig)) ++ [EvPrint EmptyString],
       Ok tt)
  | Raise e =>
      ([EvPrint ("Running " +:+ dquote +:+
                 "dig -t txt o-o.myaddr.l.google.com @ns1.google.com"
                 +:+ dquote);
        EvExec dig_txt StderrToStdout], Raise e)
  end.
Proof.
  unfold print_dig, Popen. fold dig_txt. rewrite !bind_emit.
  destruct (popen h dig_txt StderrToStdout) as [dig|e]; [|done].
  cbn [lift trace outcome fst snd].
  change ([EvExec dig_txt StderrToStdout])
    with ([EvExec dig_txt StderrToStdout] ++ []).
  rewrite bind_ok, for_each_emit, bind_ok. done.
Qed.

Lemma discovery_starts_nothing (api : compute_api)
    (project match_pattern : string) :
  commands (trace (obtain_instances E api project match_pattern)) = [] /\
  printed (trace (obtain_instances E api project match_pattern)) = [].
Proof.
  assert (Forall (fun ev => is_api_call ev = true)
            (trace (obtain_instances E api project match_pattern))) as Hall.
  { rewrite obtain_instances_run.
    destruct (outcome (get_zone_names api project)) as [zone_names|e];
      [|by repeat constructor].
    destruct (re_compile E match_pattern) as [rx|]; [|by repeat constructor].
    cbn. constructor; [done|]. apply Forall_forall. intros ev Hev.
    by apply obtain_instances_loop_trace in Hev as (z & _ & ->). }
  induction Hall as [|ev t Hev _ [IH1 IH2]]; [done|]. by destruct ev.
Qed.

(** X13. [print_dig] never looks at the exit status of [dig]: whenever
    the process starts, it relays its output whole and returns.  When
    the process cannot be started the exception is not caught, and a
    [main] called with [-d] ends with it there, before the project is
    resolved or anything else is done. *)
Theorem print_dig_behaviour (h : host) :
  (forall dig,
     popen h dig_txt StderrToStdout = Ok dig ->
     outcome (print_dig h) = Ok tt /\
     written (trace (print_dig h)) = stdout dig /\
     commands (trace (print_dig h)) = [dig_txt]) /\
  (forall e,
     popen h dig_txt StderrToStdout = Raise e ->
     outcome (print_dig h) = Raise e /\
     commands (trace (print_dig h)) = [dig_txt] /\
     forall args,
       a_dig args = true ->
       main E h args = (trace (print_dig h), Raise e)).
Proof.
  split.
  - intros dig Hdig. rewrite print_dig_run, Hdig.
    cbn [trace outcome fst snd written commands]. split; [done|]. split.
    + by rewrite written_app, written_writes, append_empty_r.
    + by rewrite commands_app, commands_writes.
  - intros e He. rewrite print_dig_run, He. do 2 (split; [done|]).
    intros args Hargs. rewrite main_phases, Hargs, print_dig_run, He. done.
Qed.

(** X14. Without [--project] (and without [-d]), the first thing [main]
    does is to run [gcloud config get-value project].  When that fails,
    [main] ends with the failure and has done nothing else; when it
    succeeds, [main] goes on exactly as if it had been given as
    [--project] the output of the command without the white space
    around it. *)
Theorem main_default_project (h : host) (args : arguments) :
  a_dig args = false ->
  a_project args = None ->
  (forall e,
     outcome (obtain_default_project h) = Raise e ->
     main E h args = ([EvExec gcloud_project StderrPipe], Raise e)) /\
  (forall current_project,
     outcome (obtain_default_project h) = Ok current_project ->
     main E h args
     = (EvExec gcloud_project StderrPipe
        :: trace (main E h (resolved current_project args)),
        outcome (main E h (resolved current_project args)))).
Proof.
  intros Hdig Hproject. rewrite main_phases, Hdig, Hproject, bind_ret.
  rewrite obtain_default_project_run. cbn [outcome snd]. split.
  - by intros e ->.
  - intros current_project ->. by rewrite bind_ok.
Qed.

(** X15. With [--project] and without [-d], [main] prints its three
    lines and builds the client before any request is sent.  When the
    client cannot be built, [main] ends with that exception and no
    request has been sent; when discovery raises, [main] ends with that
    exception after the requests of discovery, and no instance has been
    listed or probed. *)
Theorem main_setup_failures (h : host) (args : arguments)
    (current_project : string) :
  a_dig args = false ->
  a_project args = Some current_project ->
  (forall e,
     client h = Raise e ->
     main E h args = (banner current_project ++ [EvBuildApi], Raise e)) /\
  (forall api e,
     client h = Ok api ->
     outcome (obtain_instances E api current_project (a_match_pattern args))
     = Raise e ->
     main E h args
     = (banner current_project ++ EvBuildApi
        :: trace (obtain_instances E api current_project
                    (a_match_pattern args)), Raise e) /\
     commands (trace (main E h args)) = [] /\
     printed (trace (main E h args)) = printed (banner current_project)).
Proof.
  intros Hdig Hproject. rewrite (main_run h args current_project Hdig Hproject).
  split.
  - by intros e ->.
  - intros api e -> Hfound. cbn zeta. rewrite Hfound. split; [done|].
    cbn [trace fst banner app commands printed].
    destruct (discovery_starts_nothing api current_project
                (a_match_pattern args)) as [-> ->]. done.
Qed.

(** ** The report *)

Lemma for_each_commands_elem {A : Type} (body : A -> M unit) (l : list A)
    (cmd : list string) :
  cmd ∈ commands (trace (for_each body l)) ->
  exists x, x ∈ l /\ cmd ∈ commands (trace (body x)).
Proof.
  induction l as [|x l IH]; [by intros ?%elem_of_nil|].
  cbn [for_each]. rewrite trace_bind, commands_app.
  intros [Hx|Hl]%elem_of_app.
  - exists x. split; [by left | done].
  - destruct (outcome (body x)); [|by apply elem_of_nil in Hl].
    destruct (IH Hl) as (y & ? & ?). exists y. split; [by right | done].
Qed.

Lemma for_each_ok {A : Type} (body : A -> M unit) (l : list A) :
  Forall (fun x => outcome (body x) = Ok tt) l ->
  for_each body l = (flat_map (fun x => trace (body x)) l, Ok tt).
Proof.
  induction 1 as [|x l Hx _ IH]; [done|].
  cbn [for_each flat_map]. destruct (body x) as [tx [[]|e]]; [|done].
  by rewrite bind_ok, IH.
Qed.


Lemma report_zone_cons (h : host) (args : arguments)
    (current_project zone_name : string) (inst : instance)
    (instances : list instance) :
  report_zone h args current_project (zone_name, inst :: instances)
  = (EvPrint EmptyString
     :: EvPrint ("Instances in " +:+ zone_name)
     :: EvPrint "----------------------------------------"
     :: trace (for_each (report_instance h args current_project zone_name)
                 (inst :: instances)),
     outcome (for_each (report_instance h args current_project zone_name)
                (inst :: instances))).
Proof. unfold report_zone. cbn [length Nat.eqb]. by rewrite !bind_emit. Qed.

Lemma dict_items_lookup {A : Type} (d : pydict A) (k : string) (v : A) :
  (k, v) ∈ dict_items d -> d !! k = Some v.
Proof.
  unfold dict_items. intros (k' & _ & Hkv)%list_elem_of_omap.
  unfold lookup, pydict_lookup. destruct (dict_map d !! k') as [v'|] eqn:Hk'; [|done].
  cbn in Hkv. by injection Hkv as <- <-.
Qed.

Lemma dict_items_values {A : Type} (P : A -> Prop) (d : pydict A) :
  (forall k v, d !! k = Some v -> P v) ->
  Forall (fun item => P (snd item)) (dict_items d).
Proof.
  intros HP. apply Forall_forall. intros [k v] Hkv.
  apply dict_items_lookup in Hkv. by apply (HP k).
Qed.

(** X16. When discovery finds no instance at all (every zone it kept
    maps to the empty list), a [main] called with [--project] and
    without [-d] prints its three lines, sends the requests of discovery
    and returns: no heading of a zone is printed and no process is
    started. *)
Theorem main_nothing_matches (h : host) (args : arguments)
    (current_project : string) (api : compute_api) (t : list event)
    (zone_instances : pydict (list instance)) :
  a_dig args = false ->
  a_project args = Some current_project ->
  client h = Ok api ->
  obtain_instances E api current_project (a_match_pattern args)
  = (t, Ok zone_instances) ->
  (forall zone_name instances,
     zone_instances !! zone_name = Some instances -> instances = []) ->
  main E h args = (banner current_project ++ EvBuildApi :: t, Ok tt).
Proof.
  intros Hdig Hproject Hclient Hfound Hempty.
  rewrite (main_run h args current_project Hdig Hproject), Hclient, Hfound.
  cbn zeta. cbn [outcome trace fst snd].
  rewrite for_each_ok.
  - cbn [trace outcome fst snd].
    assert (flat_map (fun x => trace (report_zone h args current_project x))
              (dict_items zone_instances) = []) as ->;
      [|by rewrite app_nil_r].
    apply (dict_items_values (fun l => l = [])) in Hempty.
    induction Hempty as [|[z l] items Hl _ IH]; [done|].
    cbn in Hl. subst l. cbn [flat_map]. by rewrite IH.
  - apply (dict_items_values (fun l => l = [])) in Hempty.
    eapply Forall_impl; [exact Hempty|]. by intros [z l] [= ->].
Qed.













Lemma report_instance_commands (h : host) (args : arguments)
    (current_project zone_name : string) (inst : instance)
    (cmd : list string) :
  cmd ∈ commands (trace (report_instance h args current_project zone_name
                           inst)) ->
  a_print args = false /\
  (cmd = dig_self_ip \/
   (exists external_ip, cmd = ["traceroute"; external_ip]) \/
   (a_reverse_traceroute args = true /\
    exists name tr_project_name tr_zone_name self_ip,
      cmd = ssh_traceroute name tr_project_name tr_zone_name self_ip)).
Proof.
  unfold report_instance. destruct (a_print args).
  { rewrite print_instance_run. destruct (rbind _ _); by intros ?%elem_of_nil. }
  intros Hcmd. split; [done|]. revert Hcmd.
  rewrite traceroute_instance_raise.
  destruct (i_name inst) as [name|] eqn:Hname;
    [|by intros ?%elem_of_nil].
  cbn [getitem rbind].
  destruct (external_ip_of inst) as [ip|] eqn:Hip;
    [|by intros ?%elem_of_nil].
  rewrite (traceroute_instance_run _ _ _ _ _ _ _ Hname Hip).
  destruct (outcome (obtain_self_ip h)) as [self_ip|e].
  - cbn zeta.
    assert (forall tail,
              cmd ∈ commands ((EvExec dig_self_ip StderrInherit
                 :: EvPrint ("Traceroute TO " +:+ name +:+ ": " +:+ self_ip
                             +:+ " -> " +:+ ip)
                 :: trace (print_subprocess h "Traceroute" ["traceroute"; ip]))
                 ++ tail) ->
              cmd = dig_self_ip \/ cmd = ["traceroute"; ip] \/
              cmd ∈ commands tail) as Hstart.
    { intros tail. cbn [app commands].
      rewrite commands_app, print_subprocess_commands.
      intros [->|[->|?]%elem_of_cons]%elem_of_cons; auto. }
    destruct (outcome (print_subprocess h "Traceroute" _)).
    + destruct (a_reverse_traceroute args).
      * cbn [trace fst]. intros [->|[->|Hssh]]%Hstart; eauto.
        cbn [commands] in Hssh. rewrite print_subprocess_commands in Hssh.
        apply list_elem_of_singleton in Hssh as ->. right; right. eauto 8.
      * cbn [trace fst]. rewrite <- (app_nil_r (_ :: _)).
        intros [->|[->|[]%elem_of_nil]]%Hstart; eauto.
    + cbn [trace fst]. rewrite <- (app_nil_r (_ :: _)).
      intros [->|[->|[]%elem_of_nil]]%Hstart; eauto.
  - cbn. intros [->|[]%elem_of_nil]%elem_of_cons. auto.
Qed.

(** X19. Whatever the host, the provider and the command line, every
    process that [main] starts is one of five: [dig -t txt ...] and only
    with [-d]; [gcloud config get-value project] and only without
    [--project]; and, only without [--print], the lookup of the address
    of the host, [traceroute] on one address, and, only with [-r],
    [gcloud compute ssh ... --command traceroute ...]. *)
Theorem main_commands_expected (h : host) (args : arguments) :
  Forall (expected_command args) (commands (trace (main E h args))).
Proof.
  apply Forall_forall. intros cmd. rewrite main_phases, trace_bind, commands_app.
  intros [Hdig|Hnext]%elem_of_app.
  { left. destruct (a_dig args); [|by apply elem_of_nil in Hdig].
    split; [done|]. rewrite print_dig_run in Hdig.
    destruct (popen h dig_txt StderrToStdout); cbn in Hdig.
    - rewrite commands_app, commands_writes in Hdig.
      by apply list_elem_of_singleton in Hdig.
    - by apply list_elem_of_singleton in Hdig. }
  destruct (outcome (if a_dig args then _ else _));
    [|by apply elem_of_nil in Hnext].
  rewrite trace_bind, commands_app in Hnext.
  apply elem_of_app in Hnext as [Hproject|Hnext].
  { right; left. destruct (a_project args); [by apply elem_of_nil in Hproject|].
    split; [done|]. rewrite obtain_default_project_run in Hproject.
    by apply list_elem_of_singleton in Hproject. }
  destruct (outcome (match a_project args with Some _ => _ | None => _ end))
    as [current_project|]; [|by apply elem_of_nil in Hnext].
  right; right.
  rewrite (main_run h (resolved current_project args) current_project)
    in Hnext by reflexivity.
  assert (cmd ∈ commands (trace (for_each (report_zone h args current_project)
                                   (dict_items
                                      (default ∅ (match client h with
                                        | Ok api =>
                                            match outcome (obtain_instances E api
                                              current_project
                                              (a_match_pattern args)) with
                                            | Ok zi => Some zi
                                            | Raise _ => None
                                            end
                                        | Raise _ => None
                                        end)))))) as Hreport.
  { destruct (client h) as [api|e]; [|by cbn in Hnext; apply elem_of_nil in Hnext].
    cbn zeta in Hnext. cbn [a_match_pattern resolved] in Hnext.
    pose proof (discovery_starts_nothing api current_project
                  (a_match_pattern args)) as [Hquiet _].
    destruct (outcome (obtain_instances E api current_project
                         (a_match_pattern args))) as [zi|e];
      cbn [trace fst banner app commands] in Hnext.
    - rewrite commands_app, Hquiet in Hnext. exact Hnext.
    - rewrite Hquiet in Hnext. by apply elem_of_nil in Hnext. }
  apply for_each_commands_elem in Hreport as ([zone_name instances] & _ & Hzone).
  destruct instances as [|inst instances]; [by apply elem_of_nil in Hzone|].
  rewrite report_zone_cons in Hzone. cbn [trace fst commands] in Hzone.
  apply for_each_commands_elem in Hzone as (x & _ & Hx).
  by apply report_instance_commands in Hx.
Qed.

End MainPhases.

(** ** The script at work on the other hosts *)

Lemma main_default_project_witness :
  (forall e,
     outcome (obtain_default_project Lab.no_traceroute) = Raise e ->
     main Re.engine Lab.no_traceroute (Lab.default_args "web-")
     = ([EvExec gcloud_project StderrPipe], Raise e)) /\
  (forall current_project,
     outcome (obtain_default_project Lab.no_traceroute) = Ok current_project ->
     main Re.engine Lab.no_traceroute (Lab.default_args "web-")
     = (EvExec gcloud_project StderrPipe
        :: trace (main Re.engine Lab.no_traceroute
                    (resolved current_project (Lab.default_args "web-"))),
        outcome (main Re.engine Lab.no_traceroute
                   (resolved current_project (Lab.default_args "web-"))))).
Proof.
  apply (main_default_project Re.engine Lab.no_traceroute
           (Lab.default_args "web-")); reflexivity.
Defined.

Example default_project_is_stripped :
  main Re.engine Lab.no_traceroute (Lab.default_args "web-")
  = (EvExec gcloud_project StderrPipe
     :: banner "demo"
     ++ [EvBuildApi; EvZonesList "demo"; EvInstancesList "demo" "us-east1-b";
         EvInstancesList "demo" "europe-west1-d";
         EvPrint EmptyString; EvPrint "Instances in us-east1-b";
         EvPrint "----------------------------------------";
         EvPrint "web-01: 203.0.113.10"], Ok tt) /\
  main Re.engine Lab.logged_out (Lab.default_args "web-")
  = ([EvExec gcloud_project StderrPipe], Raise (CalledProcessError 1)).
Proof. split; run_script. Qed.

Lemma main_setup_failures_witness :
  (forall e,
     client Lab.logged_out = Raise e ->
     main Re.engine Lab.logged_out (Demo.print_args "web-")
     = (banner "demo" ++ [EvBuildApi], Raise e)) /\
  (forall api e,
     client Lab.logged_out = Ok api ->
     outcome (obtain_instances Re.engine api "demo"
                (a_match_pattern (Demo.print_args "web-"))) = Raise e ->
     main Re.engine Lab.logged_out (Demo.print_args "web-")
     = (banner "demo" ++ EvBuildApi
        :: trace (obtain_instances Re.engine api "demo"
                    (a_match_pattern (Demo.print_args "web-"))), Raise e) /\
     commands (trace (main Re.engine Lab.logged_out (Demo.print_args "web-")))
     = [] /\
     printed (trace (main Re.engine Lab.logged_out (Demo.print_args "web-")))
     = printed (banner "demo")).
Proof.
  apply (main_setup_failures Re.engine Lab.logged_out (Demo.print_args "web-")
           "demo"); reflexivity.
Defined.

Lemma main_nothing_matches_witness :
  main Re.engine (Demo.machine Demo.api) (Demo.trace_args "db-")
  = (banner "demo" ++ EvBuildApi
     :: trace (obtain_instances Re.engine Demo.api "demo" "db-"), Ok tt).
Proof.
  apply (main_nothing_matches Re.engine (Demo.machine Demo.api)
           (Demo.trace_args "db-") "demo" Demo.api
           (trace (obtain_instances Re.engine Demo.api "demo" "db-"))
           (<["europe-west1-d" := []]> (<["us-east1-b" := []]> ∅))).
  - reflexivity.
  - reflexivity.
  - reflexivity.
  - run_script.
  - intros zone_name instances. rewrite dict_lookup_insert.
    case_decide; [by intros [= <-]|]. rewrite dict_lookup_insert.
    case_decide; [by intros [= <-]|]. by rewrite dict_lookup_empty.
Defined.




Example batch_survives_missing_traceroute :
  commands (trace (main Re.engine Lab.no_traceroute (Lab.reverse_args "web-")))
  = [dig_self_ip; ["traceroute"; "203.0.113.10"];
     ssh_traceroute "web-01" "demo" "us-east1-b" "198.51.100.7"] /\
  main Re.engine Lab.no_dig (Lab.dig_args "web-")
  = ([EvPrint ("Running " +:+ dquote +:+
               "dig -t txt o-o.myaddr.l.google.com @ns1.google.com"
               +:+ dquote);
      EvExec dig_txt StderrToStdout], Raise Lab.not_found).
Proof. split; run_script. Qed.

(** ** The listing of [--print] *)





Section PrintMode.

Variable E : re_engine.


End PrintMode.


